(** * The authorization controller of the OIDC provider

    A shallow embedding of [src/modules/auth/auth.controller.ts]: the
    handlers [getAuth], [getLogin], [postLogin] and [getRegister] of
    [AuthController], written over an explicit world (the mutable session
    object, the console and the HTTP response) in a small state-and-exception
    monad in which, as in JavaScript, a mutation made before a [throw]
    survives the [throw]. *)

From Stdlib Require Import String Ascii List ZArith NArith Bool Setoid.
Import ListNotations.
Local Open Scope string_scope.

(** ** JavaScript values the controller relies on *)

Module Js.

(** [Boolean(s)] for a value that is a string or [undefined]. *)
Definition truthy (s : option string) : bool :=
  match s with
  | Some s => negb (s =? "")
  | None => false
  end.

(** [Boolean(n)] for a value that is an integral number or [undefined]. *)
Definition truthy_number (n : option Z) : bool :=
  match n with
  | Some n => negb (n =? 0)%Z
  | None => false
  end.

(** [s.split(sep)] for a one-character separator: the pieces between the
    separators, the empty ones included; never the empty array. *)
Fixpoint split (sep : ascii) (s : string) : list string :=
  match s with
  | EmptyString => [EmptyString]
  | String c rest =>
      if Ascii.eqb c sep then EmptyString :: split sep rest
      else match split sep rest with
           | piece :: pieces => String c piece :: pieces
           | [] => [String c EmptyString]
           end
  end.

(** [a.includes(x)] on an array of enum members. *)
Definition includes {A : Type} (eqb : A -> A -> bool) (a : list A) (x : A) : bool :=
  existsb (eqb x) a.

(** [x || d] on strings. *)
Definition or_else (x : option string) (d : string) : string :=
  match x with
  | Some s => if s =? "" then d else s
  | None => d
  end.

End Js.

(** ** Enumerations of [models] and [exceptions]

    Their declarations are not among the sources; the members are the ones
    the controller names. *)

Module ResponseTypeEnum.
Inductive t : Set := code | id_token | token.

Definition eqb (a b : t) : bool :=
  match a, b with
  | code, code | id_token, id_token | token, token => true
  | _, _ => false
  end.
End ResponseTypeEnum.

Module Oauth2AndOidcErrorsEnum.
Inductive t : Set := invalid_request | unauthorized_client | access_denied.
End Oauth2AndOidcErrorsEnum.

Module AuthRequestRequiredParamters.
Inductive t : Set := client_id | redirect_uri | scope | response_type.
End AuthRequestRequiredParamters.

Module AuthPrompt.
(** Modelled from the spec: the value of the enum member
    [AuthPrompt.create], which the sources use but do not declare
    (routing sends the user to registration when prompt == create). *)
Definition create : string := "create".
End AuthPrompt.

(** [ScopeEnum] is a string enum passed through untouched. *)
Definition ScopeEnum : Set := string.

(** ** Entities *)

(** [Client]: the controller reads one column of it, the comma-separated
    list of registered redirect URIs; [None] for a record that holds no
    string there. *)
Record Client : Set := { redirect_uris : option string }.

(** [Account]: opaque to the controller, which hands it to the signer. *)
Record Account : Set := { account_id : string }.

(** [InteractionModel].  Every member is optional: the controller itself
    stores the object [{ loginAttempts: 1 }] under that type. *)
Record InteractionModel : Set := {
  loginAttempts : option Z;
  clientIp : option string;
  client : option Client;
  client_id : option string;
  redirect_uri : option string;
  scope : option (list ScopeEnum);
  response_type : option (list ResponseTypeEnum.t);
  state : option string;
  response_mode : option string;
  nonce : option string;
  display : option string;
  prompt : option string;
  max_age : option string;
  ui_locales : option string;
  id_token_hint : option string;
  login_hint : option string;
  acr_values : option string;
  code : option string;
  id_token : option string;
  access_token : option string
}.

(** The object literal [{ loginAttempts: n }]. *)
Definition only_loginAttempts (n : Z) : InteractionModel :=
  {| loginAttempts := Some n; clientIp := None; client := None;
     client_id := None; redirect_uri := None; scope := None;
     response_type := None; state := None; response_mode := None;
     nonce := None; display := None; prompt := None; max_age := None;
     ui_locales := None; id_token_hint := None; login_hint := None;
     acr_values := None; code := None; id_token := None;
     access_token := None |}.

(** Assignments to one member of an interaction. *)
Definition set_loginAttempts (v : option Z) (i : InteractionModel) : InteractionModel :=
  {| loginAttempts := v; clientIp := clientIp i; client := client i;
     client_id := client_id i; redirect_uri := redirect_uri i; scope := scope i;
     response_type := response_type i; state := state i;
     response_mode := response_mode i; nonce := nonce i; display := display i;
     prompt := prompt i; max_age := max_age i; ui_locales := ui_locales i;
     id_token_hint := id_token_hint i; login_hint := login_hint i;
     acr_values := acr_values i; code := code i; id_token := id_token i;
     access_token := access_token i |}.

Definition set_code (v : option string) (i : InteractionModel) : InteractionModel :=
  {| loginAttempts := loginAttempts i; clientIp := clientIp i; client := client i;
     client_id := client_id i; redirect_uri := redirect_uri i; scope := scope i;
     response_type := response_type i; state := state i;
     response_mode := response_mode i; nonce := nonce i; display := display i;
     prompt := prompt i; max_age := max_age i; ui_locales := ui_locales i;
     id_token_hint := id_token_hint i; login_hint := login_hint i;
     acr_values := acr_values i; code := v; id_token := id_token i;
     access_token := access_token i |}.

Definition set_id_token (v : option string) (i : InteractionModel) : InteractionModel :=
  {| loginAttempts := loginAttempts i; clientIp := clientIp i; client := client i;
     client_id := client_id i; redirect_uri := redirect_uri i; scope := scope i;
     response_type := response_type i; state := state i;
     response_mode := response_mode i; nonce := nonce i; display := display i;
     prompt := prompt i; max_age := max_age i; ui_locales := ui_locales i;
     id_token_hint := id_token_hint i; login_hint := login_hint i;
     acr_values := acr_values i; code := code i; id_token := v;
     access_token := access_token i |}.

Definition set_access_token (v : option string) (i : InteractionModel) : InteractionModel :=
  {| loginAttempts := loginAttempts i; clientIp := clientIp i; client := client i;
     client_id := client_id i; redirect_uri := redirect_uri i; scope := scope i;
     response_type := response_type i; state := state i;
     response_mode := response_mode i; nonce := nonce i; display := display i;
     prompt := prompt i; max_age := max_age i; ui_locales := ui_locales i;
     id_token_hint := id_token_hint i; login_hint := login_hint i;
     acr_values := acr_values i; code := code i; id_token := id_token i;
     access_token := v |}.

(** The session object injected by [@Session()]. *)
Record Session : Set := {
  interaction : option InteractionModel;
  email : option string;
  password : option string
}.

Definition set_interaction (v : option InteractionModel) (s : Session) : Session :=
  {| interaction := v; email := email s; password := password s |}.

Definition set_credentials (e p : option string) (s : Session) : Session :=
  {| interaction := interaction s; email := e; password := p |}.

(** The express request, as far as [getAuth] looks at it: its own property
    [clientIp], when it has one. *)
Record Request : Set := { req_clientIp : option string }.

Module LoginDto.
Record t : Set := { email : option string; password : option string }.
End LoginDto.

Module LoginResponseDto.
Record t : Set := {
  code : option string;
  access_token : option string;
  id_token : option string;
  state : option string;
  nonce : option string
}.

(** The object literal [{}]. *)
Definition empty : t :=
  {| code := None; access_token := None; id_token := None;
     state := None; nonce := None |}.
End LoginResponseDto.

(** ** Exceptions *)

(** A value thrown by a service or by the platform; [catch] reads its
    [message]. *)
Record JsError : Set := { message : string }.

Record UnauthorizedBody : Set := {
  category : string;
  body_message : string;
  original_error : option string
}.

(** What a handler throws to the framework. *)
Inductive Thrown : Set :=
| OidcBadRequestException (error : Oauth2AndOidcErrorsEnum.t)
                          (parameter : AuthRequestRequiredParamters.t)
| UnauthorizedException (body : UnauthorizedBody) (description : string)
| Uncaught (e : JsError).

(** ** The world a handler runs in *)

(** A line written by [console.log]: the client the registry resolved. *)
Inductive LogLine : Set := LogClient (c : option Client).

Record World : Set := {
  session : Session;
  console : list LogLine;
  response : option string   (* the target of [res.redirect], once called *)
}.

Inductive Completion (E A : Type) : Type :=
| Normal (a : A)
| Throw (e : E).
Arguments Normal {E A} a.
Arguments Throw {E A} e.

(** A computation that may mutate the world and then returns or throws. *)
Definition Eff (E A : Type) : Type := World -> Completion E A * World.

Definition ret {E A} (a : A) : Eff E A := fun w => (Normal a, w).

Definition throw {E A} (e : E) : Eff E A := fun w => (Throw e, w).

Definition bind {E A B} (m : Eff E A) (k : A -> Eff E B) : Eff E B :=
  fun w =>
    match m w with
    | (Normal a, w') => k a w'
    | (Throw e, w') => (Throw e, w')
    end.

(** [try { m } catch (err) { h err }]: the world the handler starts from is
    the one the body left. *)
Definition try_catch {E F A} (m : Eff E A) (h : E -> Eff F A) : Eff F A :=
  fun w =>
    match m w with
    | (Normal a, w') => (Normal a, w')
    | (Throw e, w') => h e w'
    end.

Declare Scope eff_scope.
Delimit Scope eff_scope with eff.
Notation "x <- m ;; k" := (bind m (fun x => k))
  (at level 61, m at next level, right associativity) : eff_scope.
Notation "m ;; k" := (bind m (fun _ => k))
  (at level 61, right associativity) : eff_scope.
Local Open Scope eff_scope.

Definition get_session {E} : Eff E Session := fun w => (Normal (session w), w).

Definition put_session {E} (s : Session) : Eff E unit :=
  fun w => (Normal tt, {| session := s; console := console w; response := response w |}).

Definition console_log {E} (l : LogLine) : Eff E unit :=
  fun w => (Normal tt, {| session := session w; console := (console w ++ [l])%list;
                          response := response w |}).

Definition res_redirect {E} (href : string) : Eff E unit :=
  fun w => (Normal tt, {| session := session w; console := console w;
                          response := Some href |}).

(** [session.interaction = v]. *)
Definition assign_interaction {E} (v : option InteractionModel) : Eff E unit :=
  s <- get_session ;; put_session (set_interaction v s).

(** The promise a service call returns, once settled. *)
Inductive Settled (A : Type) : Type :=
| Resolved (a : A)
| Rejected (e : JsError).
Arguments Resolved {A} a.
Arguments Rejected {A} e.

Definition await {A} (p : Settled A) : Eff JsError A :=
  match p with
  | Resolved a => ret a
  | Rejected e => throw e
  end.

(** Reading or writing a member of [session.interaction] when the session
    has no interaction is a [TypeError], and so is calling [split] on a
    client's [redirect_uris] when the client has none. *)
Definition TypeError : JsError := {| message := "Cannot read properties of undefined" |}.

(** ** The platform's [URL] class

    A parsed URL keeps what precedes the query ([base]: scheme, authority
    and path, serialized), the query, the list behind [searchParams], and
    the fragment.  [searchParams.append] rewrites the query from the list
    with the application/x-www-form-urlencoded serializer. *)

Module URL.

Record t : Set := {
  base : string;
  query : option string;
  searchParams : list (string * string);
  fragment : option string
}.

(** Bytes the urlencoded serializer leaves alone: ASCII letters and
    digits and the four marks * - . _ *)
Definition unreserved (c : ascii) : bool :=
  let n := N_of_ascii c in
  ((48 <=? n) && (n <=? 57) || (65 <=? n) && (n <=? 90)
   || (97 <=? n) && (n <=? 122)
   || (n =? 42) || (n =? 45) || (n =? 46) || (n =? 95))%N.

Definition hex_digit (n : N) : ascii :=
  ascii_of_N (if (n <? 10)%N then 48 + n else 55 + n).

Definition percent_encode (c : ascii) : string :=
  let n := N_of_ascii c in
  String "%" (String (hex_digit (n / 16)) (String (hex_digit (n mod 16)) EmptyString)).

Fixpoint urlencode (s : string) : string :=
  match s with
  | EmptyString => EmptyString
  | String c rest =>
      (if Ascii.eqb c " " then "+"
       else if unreserved c then String c EmptyString
       else percent_encode c) ++ urlencode rest
  end.

Definition serialize_pair (p : string * string) : string :=
  urlencode (fst p) ++ "=" ++ urlencode (snd p).

Definition serialize (l : list (string * string)) : string :=
  String.concat "&" (map serialize_pair l).

(** [u.searchParams.append(name, value)]. *)
Definition append (name value : string) (u : t) : t :=
  let l := (searchParams u ++ [(name, value)])%list in
  let q := serialize l in
  {| base := base u;
     query := if q =? "" then None else Some q;
     searchParams := l;
     fragment := fragment u |}.

(** [u.href]. *)
Definition href (u : t) : string :=
  base u
  ++ match query u with Some q => "?" ++ q | None => "" end
  ++ match fragment u with Some f => "#" ++ f | None => "" end.

End URL.

(** ** The services the controller is given

    The registry, the credential verifier, the signer, the uuid generator
    and the URL parser are outside the controller; each is called at most
    once per request, so a function of its arguments describes any run. *)

Record Services : Type := {
  (** [clientsService.findOne]: the client, nothing, or a rejection. *)
  findOne : string -> Settled (option Client);
  (** [accountsService.loginWithEmail]. *)
  loginWithEmail : string -> option string -> Settled Account;
  (** [joseService.createIdToken]. *)
  createIdToken : Account -> option Client -> option (list ScopeEnum) -> Settled string;
  (** [joseService.createAccessToken]. *)
  createAccessToken : Account -> option Client -> Settled string;
  (** [uuidv4()]. *)
  uuidv4 : string;
  (** [new URL(s)]; [None] when the constructor throws. *)
  new_URL : string -> option URL.t
}.

(** ** GET /auth *)

Module Query.
(** The query parameters of the authorization request, after the pipes.
    No pipe touches [max_age]: declared a number, it arrives as the string
    the query holds and is stored as it is. *)
Record t : Set := {
  client_id : string;
  redirect_uri : string;
  scope : list ScopeEnum;
  response_type : list ResponseTypeEnum.t;
  state : option string;
  response_mode : option string;
  nonce : option string;
  display : option string;
  prompt : option string;
  max_age : option string;
  ui_locales : option string;
  id_token_hint : option string;
  login_hint : option string;
  acr_values : option string
}.
End Query.

Record RedirectTo : Set := { url : string }.

Definition noClientFoundError : Thrown :=
  OidcBadRequestException Oauth2AndOidcErrorsEnum.unauthorized_client
                          AuthRequestRequiredParamters.client_id.

(** Lines 203-217: the client, or [noClientFoundError]. *)
Definition find_client (svc : Services) (client_id : string) : Eff Thrown Client :=
  found <- try_catch
             (c <- await (findOne svc client_id) ;;
              console_log (LogClient c) ;;
              ret c)
             (fun _ => throw noClientFoundError) ;;
  match found with
  | Some c => ret c
  | None => throw noClientFoundError
  end.

(** Lines 222-225: [client.redirect_uris.split(',').find(uri =>
    redirect_uri === uri)] for a client that holds the string; for one that
    does not, nothing is found (the handler has thrown at the [split]). *)
Definition isRedirectUri (c : Client) (redirect_uri : string) : option string :=
  match redirect_uris c with
  | Some list => find (fun uri => redirect_uri =? uri) (Js.split "," list)
  | None => None
  end.

(** Line 244: [session.interaction.loginAttempts ?
    session.interaction.loginAttempts++ : 1].  The postfix increment stores
    the successor in the object it reads from and yields the value it
    read. *)
Definition loginAttempts_or_1 : Eff Thrown Z :=
  s <- get_session ;;
  match interaction s with
  | None => throw (Uncaught TypeError)
  | Some i =>
      match loginAttempts i with
      | Some old =>
          if Js.truthy_number (Some old) then
            assign_interaction (Some (set_loginAttempts (Some (old + 1)%Z) i)) ;;
            ret old
          else ret 1%Z
      | None => ret 1%Z
      end
  end.

(** Lines 243-261: the object literal stored as the new interaction. *)
Definition new_interaction (attempts : Z) (req : Request) (c : Client) (q : Query.t)
  : InteractionModel :=
  {| loginAttempts := Some attempts;
     clientIp := Some (match req_clientIp req with Some ip => ip | None => "" end);
     client := Some c;
     client_id := Some (Query.client_id q);
     redirect_uri := Some (Query.redirect_uri q);
     scope := Some (Query.scope q);
     response_type := Some (Query.response_type q);
     state := Query.state q;
     response_mode := Query.response_mode q;
     nonce := Query.nonce q;
     display := Query.display q;
     prompt := Query.prompt q;
     max_age := Query.max_age q;
     ui_locales := Query.ui_locales q;
     id_token_hint := Query.id_token_hint q;
     login_hint := Query.login_hint q;
     acr_values := Query.acr_values q;
     code := None; id_token := None; access_token := None |}.

(** Lines 235-261. *)
Definition save_interaction (req : Request) (c : Client) (q : Query.t) : Eff Thrown unit :=
  s <- get_session ;;
  match interaction s with
  | Some i => assign_interaction (Some i)
  | None => assign_interaction (Some (only_loginAttempts 1))
  end ;;
  attempts <- loginAttempts_or_1 ;;
  assign_interaction (Some (new_interaction attempts req c q)).

Definition getAuth (svc : Services) (req : Request) (q : Query.t) : Eff Thrown RedirectTo :=
  c <- find_client svc (Query.client_id q) ;;
  match redirect_uris c with
  | None =>
      (* line 222: [split] of a member that is not there *)
      throw (Uncaught TypeError)
  | Some _ =>
      if negb (Js.truthy (isRedirectUri c (Query.redirect_uri q))) then
        throw (OidcBadRequestException Oauth2AndOidcErrorsEnum.invalid_request
                                       AuthRequestRequiredParamters.redirect_uri)
      else
        save_interaction req c q ;;
        if match Query.prompt q with
           | Some p => p =? AuthPrompt.create
           | None => false
           end
        then ret {| url := "/auth/register" |}
        else ret {| url := "/auth/login" |}
  end.

(** ** GET /auth/login and GET /auth/register *)

Module View.
(** The object handed to the template: three members of its own and the
    members of the interaction spread after them ([locals]; nothing when
    the session has no interaction). *)
Record t : Set := {
  email : string;
  password : string;
  postUri : string;
  locals : option InteractionModel
}.
End View.

(** Line 339: [!session.interaction || !session.interaction.client]. *)
Definition lacks_client (s : Session) : bool :=
  match interaction s with
  | Some i => match client i with Some _ => false | None => true end
  | None => true
  end.

Definition getLogin : Eff Thrown View.t :=
  s <- get_session ;;
  if lacks_client s then
    throw (OidcBadRequestException Oauth2AndOidcErrorsEnum.unauthorized_client
                                   AuthRequestRequiredParamters.client_id)
  else
    ret {| View.email := Js.or_else (email s) "";
           View.password := Js.or_else (password s) "";
           View.postUri := "/auth/login";
           View.locals := interaction s |}.

Definition getRegister : Eff Thrown View.t :=
  s <- get_session ;;
  ret {| View.email := "@todo - from session and/or cookie";
         View.password := "@todo - from session and/or cookie";
         View.postUri := "/auth/register";
         View.locals := interaction s |}.

(** ** POST /auth/login *)

Module Grant.
Import LoginResponseDto.

(** Assignments to one member of the login response. *)
Definition set_code (v : option string) (r : t) : t :=
  {| code := v; access_token := access_token r; id_token := id_token r;
     state := state r; nonce := nonce r |}.
Definition set_access_token (v : option string) (r : t) : t :=
  {| code := code r; access_token := v; id_token := id_token r;
     state := state r; nonce := nonce r |}.
Definition set_id_token (v : option string) (r : t) : t :=
  {| code := code r; access_token := access_token r; id_token := v;
     state := state r; nonce := nonce r |}.
Definition set_state (v : option string) (r : t) : t :=
  {| code := code r; access_token := access_token r; id_token := id_token r;
     state := v; nonce := nonce r |}.
Definition set_nonce (v : option string) (r : t) : t :=
  {| code := code r; access_token := access_token r; id_token := id_token r;
     state := state r; nonce := v |}.
End Grant.

(** [session.interaction], read for one of its members. *)
Definition read_interaction : Eff JsError InteractionModel :=
  s <- get_session ;;
  match interaction s with
  | Some i => ret i
  | None => throw TypeError
  end.

(** [session.interaction.m = v]: the object is changed in place. *)
Definition update_interaction (f : InteractionModel -> InteractionModel) : Eff JsError unit :=
  i <- read_interaction ;;
  assign_interaction (Some (f i)).

Definition wants (response_type : list ResponseTypeEnum.t) (m : ResponseTypeEnum.t) : bool :=
  Js.includes ResponseTypeEnum.eqb response_type m.

(** Lines 376-398: what is minted, recorded on the interaction and put in
    the login response. *)
Definition issue (svc : Services) (response_type : list ResponseTypeEnum.t)
                 (user : Account) : Eff JsError LoginResponseDto.t :=
  let loginResponse := LoginResponseDto.empty in
  loginResponse <-
    (if wants response_type ResponseTypeEnum.code then
       let loginResponse := Grant.set_code (Some (uuidv4 svc)) loginResponse in
       update_interaction (set_code (LoginResponseDto.code loginResponse)) ;;
       ret loginResponse
     else ret loginResponse) ;;
  loginResponse <-
    (if wants response_type ResponseTypeEnum.id_token then
       i <- read_interaction ;;
       let scopes := scope i in
       try_catch
         (i <- read_interaction ;;
          t <- await (createIdToken svc user (client i) scopes) ;;
          let loginResponse := Grant.set_id_token (Some t) loginResponse in
          update_interaction (set_id_token (LoginResponseDto.id_token loginResponse)) ;;
          ret loginResponse)
         (fun err => throw err)
     else ret loginResponse) ;;
  loginResponse <-
    (if wants response_type ResponseTypeEnum.token then
       i <- read_interaction ;;
       t <- await (createAccessToken svc user (client i)) ;;
       let loginResponse := Grant.set_access_token (Some t) loginResponse in
       update_interaction (set_access_token (LoginResponseDto.access_token loginResponse)) ;;
       ret loginResponse
     else ret loginResponse) ;;
  i <- read_interaction ;;
  let loginResponse :=
    if Js.truthy (state i) then Grant.set_state (state i) loginResponse
    else loginResponse in
  i <- read_interaction ;;
  let loginResponse :=
    if Js.truthy (nonce i) then Grant.set_nonce (nonce i) loginResponse
    else loginResponse in
  ret loginResponse.

(** [String(x)] for a string or [undefined]. *)
Definition to_string (x : option string) : string :=
  match x with
  | Some s => s
  | None => "undefined"
  end.

(** [if (v) u.searchParams.append(name, v)]. *)
Definition append_if_truthy (name : string) (v : option string) (u : URL.t) : URL.t :=
  if Js.truthy v then URL.append name (to_string v) u else u.

(** Lines 404-408: the members of the login response, in the order the
    controller appends them. *)
Definition append_all (loginResponse : LoginResponseDto.t) (u : URL.t) : URL.t :=
  let u := append_if_truthy "code" (LoginResponseDto.code loginResponse) u in
  let u := append_if_truthy "access_token" (LoginResponseDto.access_token loginResponse) u in
  let u := append_if_truthy "id_token" (LoginResponseDto.id_token loginResponse) u in
  let u := append_if_truthy "state" (LoginResponseDto.state loginResponse) u in
  let u := append_if_truthy "nonce" (LoginResponseDto.nonce loginResponse) u in
  u.

(** Lines 403-409. *)
Definition redirect (svc : Services) (loginResponse : LoginResponseDto.t) : Eff JsError unit :=
  i <- read_interaction ;;
  match new_URL svc (to_string (redirect_uri i)) with
  | None => throw {| message := "Invalid URL" |}
  | Some redirectUri =>
      res_redirect (URL.href (append_all loginResponse redirectUri))
  end.

Definition user_not_found (err : JsError) : Thrown :=
  UnauthorizedException
    {| category := "mc.user_not_found";
       body_message := "The user could not be found";
       original_error := Some (message err) |}
    "The user could not be found".

Definition invalid_session : Thrown :=
  UnauthorizedException
    {| category := "mc.invalid_session";
       body_message := "The session could not be found";
       original_error := None |}
    "The session could not be found".

(** Line 363: [session.interaction && session.interaction.response_type]. *)
Definition pending_response_type (s : Session) : option (list ResponseTypeEnum.t) :=
  match interaction s with
  | Some i => response_type i
  | None => None
  end.

Definition postLogin (svc : Services) (loginDto : LoginDto.t) : Eff Thrown unit :=
  s <- get_session ;;
  match pending_response_type s with
  | Some response_type =>
      if Js.truthy (LoginDto.email loginDto) then
        put_session (set_credentials (LoginDto.email loginDto)
                                     (LoginDto.password loginDto) s) ;;
        try_catch
          (user <- await (loginWithEmail svc (to_string (LoginDto.email loginDto))
                                             (LoginDto.password loginDto)) ;;
           loginResponse <- issue svc response_type user ;;
           redirect svc loginResponse)
          (fun err => throw (user_not_found err))
      else ret tt
  | None => throw invalid_session
  end.

(** ** A reference environment

    Concrete services on which the handlers can be run.  [Parser.parse]
    reads [new URL] on absolute URLs that are already in serialized form
    (lower-case scheme and host, a path, no default port, no dot segments):
    on those the constructor only has to find the query and the fragment. *)

Module Parser.

(** [s] cut at the first [sep]: what precedes it and, when there is one,
    what follows it. *)
Fixpoint cut (sep : ascii) (s : string) : string * option string :=
  match s with
  | EmptyString => (EmptyString, None)
  | String c rest =>
      if Ascii.eqb c sep then (EmptyString, Some rest)
      else let (before, after) := cut sep rest in (String c before, after)
  end.

Definition is_alpha (c : ascii) : bool :=
  let n := N_of_ascii c in
  ((65 <=? n) && (n <=? 90) || (97 <=? n) && (n <=? 122))%N.

Definition is_scheme_char (c : ascii) : bool :=
  let n := N_of_ascii c in
  (is_alpha c || (48 <=? n) && (n <=? 57) || (n =? 43) || (n =? 45) || (n =? 46))%N.

Fixpoint scheme_ends (s : string) : bool :=
  match s with
  | EmptyString => false
  | String c rest =>
      if Ascii.eqb c ":" then true
      else if is_scheme_char c then scheme_ends rest
      else false
  end.

(** Without a base, the constructor rejects a string with no scheme. *)
Definition has_scheme (s : string) : bool :=
  match s with
  | EmptyString => false
  | String c rest => is_alpha c && scheme_ends rest
  end.

Definition hex_value (c : ascii) : option N :=
  let n := N_of_ascii c in
  if ((48 <=? n) && (n <=? 57))%N then Some (n - 48)%N
  else if ((65 <=? n) && (n <=? 70))%N then Some (n - 55)%N
  else if ((97 <=? n) && (n <=? 102))%N then Some (n - 87)%N
  else None.

(** The urlencoded parser's decoding of a name or a value. *)
Fixpoint urldecode (s : string) : string :=
  match s with
  | EmptyString => EmptyString
  | String c rest =>
      if Ascii.eqb c "+" then String " " (urldecode rest)
      else if Ascii.eqb c "%" then
        match rest with
        | String a (String b rest') =>
            match hex_value a, hex_value b with
            | Some x, Some y => String (ascii_of_N (16 * x + y)) (urldecode rest')
            | _, _ => String c (urldecode rest)
            end
        | _ => String c (urldecode rest)
        end
      else String c (urldecode rest)
  end.

Definition parse_pair (piece : string) : string * string :=
  let (name, value) := cut "=" piece in
  (urldecode name, urldecode (match value with Some v => v | None => "" end)).

Definition parse_query (q : string) : list (string * string) :=
  map parse_pair (filter (fun piece => negb (piece =? "")) (Js.split "&" q)).

Definition parse (s : string) : option URL.t :=
  if has_scheme s then
    let (front, frag) := cut "#" s in
    let (base, q) := cut "?" front in
    Some {| URL.base := base;
            URL.query := q;
            URL.searchParams := match q with Some q => parse_query q | None => [] end;
            URL.fragment := frag |}
  else None.

End Parser.

Module Demo.

(** A client with two registered redirect URIs, one of them with a query
    of its own. *)
Definition app : Client :=
  {| redirect_uris := Some "https://app.example/cb,https://app.example/cb?tenant=7" |}.

Definition alice : Account := {| account_id := "alice" |}.

Definition uuid : string := "110ec58a-a0f2-4ac4-8393-c866d813b8d1".

Definition registry (id : string) : Settled (option Client) :=
  if id =? "app" then Resolved (Some app)
  else if id =? "down" then Rejected {| message := "connect ECONNREFUSED" |}
  else Resolved None.

Definition verifier (e : string) (p : option string) : Settled Account :=
  match p with
  | Some p => if (e =? "alice@example.org") && (p =? "secret") then Resolved alice
              else Rejected {| message := "bad credentials" |}
  | None => Rejected {| message := "bad credentials" |}
  end.

Definition services : Services :=
  {| findOne := registry;
     loginWithEmail := verifier;
     createIdToken := fun _ _ _ => Resolved "eyJhbGciOiJSUzI1NiJ9.eyJzdWIiOiJhbGljZSJ9.c2ln";
     createAccessToken := fun _ _ => Resolved "eyJhbGciOiJSUzI1NiJ9.eyJhdCI6MX0.c2ln";
     uuidv4 := uuid;
     new_URL := Parser.parse |}.

(** The same services with a signer that has no key to sign with. *)
Definition keyless : Services :=
  {| findOne := registry;
     loginWithEmail := verifier;
     createIdToken := fun _ _ _ => Rejected {| message := "no signing key" |};
     createAccessToken := fun _ _ => Rejected {| message := "no signing key" |};
     uuidv4 := uuid;
     new_URL := Parser.parse |}.

(** The same services with a verifier that knows nobody. *)
Definition strangers (why : string) : Services :=
  {| findOne := registry;
     loginWithEmail := fun _ _ => Rejected {| message := why |};
     createIdToken := createIdToken services;
     createAccessToken := createAccessToken services;
     uuidv4 := uuid;
     new_URL := Parser.parse |}.

(** The same services behind a registry that cannot be reached. *)
Definition offline : Services :=
  {| findOne := fun _ => Rejected {| message := "connect ECONNREFUSED" |};
     loginWithEmail := verifier;
     createIdToken := createIdToken services;
     createAccessToken := createAccessToken services;
     uuidv4 := uuid;
     new_URL := Parser.parse |}.

Definition request : Request := {| req_clientIp := Some "203.0.113.9" |}.

Definition query (redirect : string) (types : list ResponseTypeEnum.t) : Query.t :=
  {| Query.client_id := "app";
     Query.redirect_uri := redirect;
     Query.scope := ["openid"];
     Query.response_type := types;
     Query.state := None;
     Query.response_mode := None;
     Query.nonce := None;
     Query.display := None;
     Query.prompt := None;
     Query.max_age := None;
     Query.ui_locales := None;
     Query.id_token_hint := None;
     Query.login_hint := None;
     Query.acr_values := None |}.

(** A request in the name of a client nobody registered. *)
Definition nobody : Query.t :=
  {| Query.client_id := "nobody";
     Query.redirect_uri := "https://app.example/cb";
     Query.scope := ["openid"];
     Query.response_type := [ResponseTypeEnum.code];
     Query.state := None; Query.response_mode := None; Query.nonce := None;
     Query.display := None; Query.prompt := None; Query.max_age := None;
     Query.ui_locales := None; Query.id_token_hint := None;
     Query.login_hint := None; Query.acr_values := None |}.

Definition fresh : World :=
  {| session := {| interaction := None; email := None; password := None |};
     console := [];
     response := None |}.

(** The world after a first, valid authorization request. *)
Definition pending (redirect : string) (types : list ResponseTypeEnum.t) : World :=
  snd (getAuth services request (query redirect types) fresh).

Definition login : LoginDto.t :=
  {| LoginDto.email := Some "alice@example.org"; LoginDto.password := Some "secret" |}.

End Demo.

(** ** Notions the properties are stated with *)

(** The counter [getAuth] stores: the one the session's interaction holds
    when it holds a truthy one, and 1 otherwise. *)
Definition stored_attempts (s : Session) : Z :=
  match interaction s with
  | Some i =>
      match loginAttempts i with
      | Some n => if (n =? 0)%Z then 1%Z else n
      | None => 1%Z
      end
  | None => 1%Z
  end.

(** The world [getAuth] leaves when it accepts the request. *)
Definition accepted (req : Request) (c : Client) (q : Query.t) (w : World) : World :=
  {| session := set_interaction
                  (Some (new_interaction (stored_attempts (session w)) req c q))
                  (session w);
     console := (console w ++ [LogClient (Some c)])%list;
     response := response w |}.

(** Where [getAuth] sends the browser. *)
Definition routeNext (q : Query.t) : RedirectTo :=
  if match Query.prompt q with
     | Some p => p =? AuthPrompt.create
     | None => false
     end
  then {| url := "/auth/register" |}
  else {| url := "/auth/login" |}.

(** The registered redirect URIs of a client: the pieces of its list, and
    none for a client without a list. *)
Definition registered (c : Client) : list string :=
  match redirect_uris c with
  | Some list => Js.split "," list
  | None => []
  end.

(** What [getAuth] throws at a resolved client whose list does not hold the
    request's redirect URI. *)
Definition refusal (c : Client) : Thrown :=
  match redirect_uris c with
  | Some _ => OidcBadRequestException Oauth2AndOidcErrorsEnum.invalid_request
                                      AuthRequestRequiredParamters.redirect_uri
  | None => Uncaught TypeError
  end.

(** A member of the login response that is there: a non-empty string. *)
Definition present (name : string) (v : option string) : list (string * string) :=
  match v with
  | Some s => if s =? "" then [] else [(name, s)]
  | None => []
  end.

(** The parameters a login response calls for, in the controller's order. *)
Definition present_fields (r : LoginResponseDto.t) : list (string * string) :=
  (present "code" (LoginResponseDto.code r)
   ++ present "access_token" (LoginResponseDto.access_token r)
   ++ present "id_token" (LoginResponseDto.id_token r)
   ++ present "state" (LoginResponseDto.state r)
   ++ present "nonce" (LoginResponseDto.nonce r))%list.

(** Two interactions that differ at most in the tokens recorded on them. *)
Definition same_request (i j : InteractionModel) : Prop :=
  set_code None (set_id_token None (set_access_token None i))
  = set_code None (set_id_token None (set_access_token None j)).

(** The world once the submission has stored the credentials it was sent
    (lines 367-368). *)
Definition submitted (dto : LoginDto.t) (w : World) : World :=
  {| session := set_credentials (LoginDto.email dto) (LoginDto.password dto) (session w);
     console := console w;
     response := response w |}.

(** A parsed URL with neither query nor fragment, serialized as [r]. *)
Definition bare (r : string) : URL.t :=
  {| URL.base := r; URL.query := None; URL.searchParams := []; URL.fragment := None |}.

(** The serialization of [u] with the parameters [added] after the ones
    of its query: scheme, authority and path, then the whole query, then
    the fragment when [u] has one. *)
Definition with_parameters (u : URL.t) (added : list (string * string)) : string :=
  URL.base u
  ++ "?" ++ URL.serialize (URL.searchParams u ++ added)
  ++ match URL.fragment u with Some f => "#" ++ f | None => "" end.

(** A string made of bytes the urlencoded serializer leaves alone. *)
Definition plain (s : string) : bool :=
  forallb URL.unreserved (list_ascii_of_string s).

(** ** GET /auth/forgot *)

Module ForgotView.
(** The object handed to the forgot template: four members of its own and
    the members of the interaction spread after them. *)
Record t : Set := {
  email : string;
  password : string;
  postUri : string;
  logoUri : string;
  locals : option InteractionModel
}.
End ForgotView.

Definition getForgot : Eff Thrown ForgotView.t :=
  s <- get_session ;;
  ret {| ForgotView.email := "@todo - from session and/or cookie";
         ForgotView.password := "@todo - from session and/or cookie";
         ForgotView.postUri := "/auth/forgot";
         ForgotView.logoUri :=
           "https://cdn.dribbble.com/users/1502795/screenshots/6205291/m.png";
         ForgotView.locals := interaction s |}.

(** ** A browser session over several requests *)

(** One request to the controller, with the services as they answer during
    that request. *)
Inductive Call : Type :=
| CallGetAuth (svc : Services) (req : Request) (q : Query.t)
| CallGetLogin
| CallPostLogin (svc : Services) (loginDto : LoginDto.t)
| CallGetRegister
| CallGetForgot.

(** Every request comes with a response of its own; the session and the
    console are the ones the previous request left. *)
Definition incoming (w : World) : World :=
  {| session := session w; console := console w; response := None |}.

(** The world a request leaves, whether its handler returns or throws. *)
Definition serve (c : Call) (w : World) : World :=
  match c with
  | CallGetAuth svc req q => snd (getAuth svc req q (incoming w))
  | CallGetLogin => snd (getLogin (incoming w))
  | CallPostLogin svc loginDto => snd (postLogin svc loginDto (incoming w))
  | CallGetRegister => snd (getRegister (incoming w))
  | CallGetForgot => snd (getForgot (incoming w))
  end.

Definition serve_all (cs : list Call) (w : World) : World :=
  fold_left (fun w c => serve c w) cs w.

(** An interaction as an accepted authorization request on a new session
    leaves it: counter 1, a response type, and a client together with one
    of that client's registered redirect URIs. *)
Definition authorized (i : InteractionModel) : Prop :=
  loginAttempts i = Some 1%Z
  /\ (exists rt, response_type i = Some rt)
  /\ (exists c r, client i = Some c /\ redirect_uri i = Some r
                  /\ In r (registered c) /\ r <> "").

(** A world whose session holds no interaction or an authorized one. *)
Definition sound (w : World) : Prop :=
  forall i, interaction (session w) = Some i -> authorized i.

(** What a login submission does, outcome by outcome, once the session has
    a pending response type [rt] and the submission an email. *)
Definition submission (svc : Services) (dto : LoginDto.t)
           (rt : list ResponseTypeEnum.t) (w : World) : Completion Thrown unit * World :=
  match loginWithEmail svc (to_string (LoginDto.email dto)) (LoginDto.password dto) with
  | Rejected e => (Throw (user_not_found e), submitted dto w)
  | Resolved user =>
      match issue svc rt user (submitted dto w) with
      | (Throw e, w2) => (Throw (user_not_found e), w2)
      | (Normal lr, w2) =>
          match interaction (session w2) with
          | None => (Throw (user_not_found TypeError), w2)
          | Some i =>
              match new_URL svc (to_string (redirect_uri i)) with
              | None => (Throw (user_not_found {| message := "Invalid URL" |}), w2)
              | Some u =>
                  (Normal tt,
                   {| session := session w2; console := console w2;
                      response := Some (URL.href (append_all lr u)) |})
              end
          end
      end
  end.

Module Cases.

(** A client whose one registered redirect URI is no URL at all. *)
Definition native : Client := {| redirect_uris := Some "app-callback" |}.

Definition services : Services :=
  {| findOne := fun _ => Resolved (Some native);
     loginWithEmail := Demo.verifier;
     createIdToken := createIdToken Demo.services;
     createAccessToken := createAccessToken Demo.services;
     uuidv4 := Demo.uuid;
     new_URL := Parser.parse |}.

(** A client whose record has no list of redirect URIs, and a registry
    that knows only that client. *)
Definition listless : Client := {| redirect_uris := None |}.

Definition unlisted : Services :=
  {| findOne := fun _ => Resolved (Some listless);
     loginWithEmail := Demo.verifier;
     createIdToken := createIdToken Demo.services;
     createAccessToken := createAccessToken Demo.services;
     uuidv4 := Demo.uuid;
     new_URL := Parser.parse |}.

(** A signer that signs ID tokens and fails on access tokens. *)
Definition half_signer : Services :=
  {| findOne := Demo.registry;
     loginWithEmail := Demo.verifier;
     createIdToken := createIdToken Demo.services;
     createAccessToken := fun _ _ => Rejected {| message := "no signing key" |};
     uuidv4 := Demo.uuid;
     new_URL := Parser.parse |}.

Definition hybrid : list ResponseTypeEnum.t :=
  [ResponseTypeEnum.code; ResponseTypeEnum.id_token; ResponseTypeEnum.token].

(** An authorization request with a state, a nonce and a prompt. *)
Definition query (st nc pr : option string) : Query.t :=
  {| Query.client_id := "app";
     Query.redirect_uri := "https://app.example/cb";
     Query.scope := ["openid"];
     Query.response_type := [ResponseTypeEnum.code];
     Query.state := st;
     Query.response_mode := None;
     Query.nonce := nc;
     Query.display := None;
     Query.prompt := pr;
     Query.max_age := None;
     Query.ui_locales := None;
     Query.id_token_hint := None;
     Query.login_hint := None;
     Query.acr_values := None |}.

Definition wrong_password : LoginDto.t :=
  {| LoginDto.email := Some "alice@example.org"; LoginDto.password := Some "guess" |}.

Definition no_email : LoginDto.t :=
  {| LoginDto.email := None; LoginDto.password := Some "secret" |}.

(** The world after a completed grant. *)
Definition granted : World :=
  snd (postLogin Demo.services Demo.login
         (Demo.pending "https://app.example/cb" [ResponseTypeEnum.code])).

End Cases.

(** Unfolds a login submission down to the service calls. *)
Ltac run_eff :=
  unfold postLogin, issue, redirect, update_interaction, read_interaction,
    assign_interaction, try_catch, bind, await, get_session, put_session,
    res_redirect, ret, throw, pending_response_type in *;
  cbn [session console response interaction email password set_interaction
       set_credentials fst snd] in *.

Example split_registered :
  registered Demo.app
  = ["https://app.example/cb"; "https://app.example/cb?tenant=7"].
Proof. reflexivity. Qed.

Example split_empty : Js.split "," "" = [""].
Proof. reflexivity. Qed.

Example split_trailing : Js.split "," "a,,b," = ["a"; ""; "b"; ""].
Proof. reflexivity. Qed.

Example urlencode_sample : URL.urlencode "a b&c=d/~" = "a+b%26c%3Dd%2F%7E".
Proof. reflexivity. Qed.

Example parse_sample :
  Parser.parse "https://app.example/cb?tenant=7&q=a+b%21#top"
  = Some {| URL.base := "https://app.example/cb";
            URL.query := Some "tenant=7&q=a+b%21";
            URL.searchParams := [("tenant", "7"); ("q", "a b!")];
            URL.fragment := Some "top" |}.
Proof. reflexivity. Qed.

Example parse_undefined : Parser.parse "undefined" = None.
Proof. reflexivity. Qed.

Example first_request :
  getAuth Demo.services Demo.request
          (Demo.query "https://app.example/cb" [ResponseTypeEnum.code]) Demo.fresh
  = (Normal {| url := "/auth/login" |},
     {| session :=
          {| interaction :=
               Some (new_interaction 1 Demo.request Demo.app
                       (Demo.query "https://app.example/cb" [ResponseTypeEnum.code]));
             email := None; password := None |};
        console := [LogClient (Some Demo.app)];
        response := None |}).
Proof. reflexivity. Qed.

Example login_after_first_request :
  postLogin Demo.services Demo.login
            (Demo.pending "https://app.example/cb" [ResponseTypeEnum.code])
  = (Normal tt,
     {| session :=
          {| interaction :=
               Some (set_code (Some Demo.uuid)
                       (new_interaction 1 Demo.request Demo.app
                          (Demo.query "https://app.example/cb" [ResponseTypeEnum.code])));
             email := Some "alice@example.org"; password := Some "secret" |};
        console := [LogClient (Some Demo.app)];
        response := Some "https://app.example/cb?code=110ec58a-a0f2-4ac4-8393-c866d813b8d1" |}).
Proof. reflexivity. Qed.

(** * Properties *)

Lemma ResponseTypeEnum_eqb_eq (a b : ResponseTypeEnum.t) :
  ResponseTypeEnum.eqb a b = true <-> a = b.
Proof. destruct a, b; simpl; split; intro H; try reflexivity; discriminate H. Qed.

Lemma wants_In (rt : list ResponseTypeEnum.t) (m : ResponseTypeEnum.t) :
  wants rt m = true <-> In m rt.
Proof.
  unfold wants, Js.includes. rewrite existsb_exists. split.
  - intros [x [Hin Heq]]. apply ResponseTypeEnum_eqb_eq in Heq. now subst.
  - intro Hin. exists m. split; [assumption | now apply ResponseTypeEnum_eqb_eq].
Qed.

(** ** [split] *)

Lemma split_not_nil (sep : ascii) (s : string) : Js.split sep s <> [].
Proof.
  destruct s as [|c s]; simpl; [discriminate|].
  destruct (Ascii.eqb c sep); [discriminate|].
  destruct (Js.split sep s); discriminate.
Qed.

(** Joining the pieces with the separator gives the string back. *)
Lemma concat_split (sep : ascii) (s : string) :
  String.concat (String sep "") (Js.split sep s) = s.
Proof.
  induction s as [|c s IH]; simpl; [reflexivity|].
  pose proof (split_not_nil sep s) as Hne.
  destruct (Ascii.eqb_spec c sep) as [->|Hc].
  - destruct (Js.split sep s) as [|p ps]; [contradiction|].
    change (String.concat (String sep "") ("" :: p :: ps))
      with (String sep (String.concat (String sep "") (p :: ps))).
    now rewrite IH.
  - destruct (Js.split sep s) as [|p ps]; [contradiction|].
    destruct ps as [|p' ps].
    + simpl in *. now rewrite IH.
    + change (String.concat (String sep "") (String c p :: p' :: ps))
        with (String c (String.concat (String sep "") (p :: p' :: ps))).
      now rewrite IH.
Qed.

(** No piece holds the separator. *)
Lemma split_pieces (sep : ascii) (s piece : string) :
  In piece (Js.split sep s) -> ~ In sep (list_ascii_of_string piece).
Proof.
  revert piece. induction s as [|c s IH]; simpl; intros piece Hin.
  - destruct Hin as [<-|[]]. simpl. tauto.
  - destruct (Ascii.eqb_spec c sep) as [->|Hc].
    + destruct Hin as [<-|Hin]; [simpl; tauto | now apply IH].
    + pose proof (split_not_nil sep s) as Hne.
      destruct (Js.split sep s) as [|p ps]; [contradiction|].
      destruct Hin as [<-|Hin].
      * simpl. intros [E|Hp]; [now apply Hc | revert Hp; apply IH; now left].
      * apply IH. now right.
Qed.

(** ** The registry lookup *)

Section Lookup.
Variable svc : Services.
Variable id : string.
Variable w : World.

Lemma find_client_found (c : Client) :
  findOne svc id = Resolved (Some c) ->
  find_client svc id w
  = (Normal c, {| session := session w;
                  console := (console w ++ [LogClient (Some c)])%list;
                  response := response w |}).
Proof.
  intro H. unfold find_client, try_catch, bind, await. rewrite H. reflexivity.
Qed.

Lemma find_client_unknown :
  findOne svc id = Resolved None ->
  find_client svc id w
  = (Throw noClientFoundError,
     {| session := session w;
        console := (console w ++ [LogClient None])%list;
        response := response w |}).
Proof.
  intro H. unfold find_client, try_catch, bind, await. rewrite H. reflexivity.
Qed.

Lemma find_client_rejected (e : JsError) :
  findOne svc id = Rejected e ->
  find_client svc id w = (Throw noClientFoundError, w).
Proof.
  intro H. unfold find_client, try_catch, bind, await. rewrite H. reflexivity.
Qed.
End Lookup.

(** ** The redirect URI check *)

Lemma find_eqb (r : string) (l : list string) :
  find (fun uri => r =? uri) l = if existsb (String.eqb r) l then Some r else None.
Proof.
  induction l as [|x l IH]; simpl; [reflexivity|].
  destruct (String.eqb_spec r x) as [->|Hne]; simpl; [reflexivity | exact IH].
Qed.

Lemma existsb_eqb_In (r : string) (l : list string) :
  existsb (String.eqb r) l = true <-> In r l.
Proof.
  rewrite existsb_exists. split.
  - intros [x [Hin Heq]]. apply String.eqb_eq in Heq. now subst.
  - intro Hin. exists r. split; [assumption | apply String.eqb_refl].
Qed.

(** The check passes exactly for a non-empty string among the pieces. *)
Lemma isRedirectUri_truthy (c : Client) (r : string) :
  Js.truthy (isRedirectUri c r) = true <-> In r (registered c) /\ r <> "".
Proof.
  unfold isRedirectUri, registered.
  destruct (redirect_uris c) as [list|];
    [|simpl; split; [discriminate | intros [[] _]]].
  rewrite find_eqb.
  destruct (existsb (String.eqb r) (Js.split "," list)) eqn:E; simpl.
  - apply existsb_eqb_In in E. destruct (String.eqb_spec r ""); simpl.
    + split; [discriminate | intros [_ Hne]; contradiction].
    + split; [intros _; split; assumption | reflexivity].
  - split; [discriminate|]. intros [Hin _].
    apply existsb_eqb_In in Hin. rewrite Hin in E. discriminate.
Qed.

Lemma isRedirectUri_unregistered (c : Client) (r : string) :
  ~ In r (registered c) -> Js.truthy (isRedirectUri c r) = false.
Proof.
  intro H. destruct (Js.truthy (isRedirectUri c r)) eqn:E; [|reflexivity].
  apply isRedirectUri_truthy in E. destruct E. contradiction.
Qed.

(** ** GET /auth, case by case *)

Section GetAuth.
Variable svc : Services.
Variable req : Request.
Variable q : Query.t.
Variable w : World.

Lemma save_interaction_run (c : Client) (w0 : World) :
  save_interaction req c q w0
  = (Normal tt,
     {| session := set_interaction
                     (Some (new_interaction (stored_attempts (session w0)) req c q))
                     (session w0);
        console := console w0;
        response := response w0 |}).
Proof.
  unfold save_interaction, loginAttempts_or_1, assign_interaction, bind,
    get_session, put_session, stored_attempts, ret.
  destruct w0 as [[[i|] e p] l r]; simpl; [|reflexivity].
  destruct (loginAttempts i) as [n|]; simpl; [|reflexivity].
  destruct (n =? 0)%Z; reflexivity.
Qed.

Lemma getAuth_unknown :
  findOne svc (Query.client_id q) = Resolved None ->
  getAuth svc req q w
  = (Throw noClientFoundError,
     {| session := session w;
        console := (console w ++ [LogClient None])%list;
        response := response w |}).
Proof.
  intro H. unfold getAuth, bind. rewrite (find_client_unknown _ _ _ H). reflexivity.
Qed.

Lemma getAuth_rejected (e : JsError) :
  findOne svc (Query.client_id q) = Rejected e ->
  getAuth svc req q w = (Throw noClientFoundError, w).
Proof.
  intro H. unfold getAuth, bind. rewrite (find_client_rejected _ _ _ _ H). reflexivity.
Qed.

Lemma getAuth_mismatch (c : Client) :
  findOne svc (Query.client_id q) = Resolved (Some c) ->
  Js.truthy (isRedirectUri c (Query.redirect_uri q)) = false ->
  getAuth svc req q w
  = (Throw (refusal c),
     {| session := session w;
        console := (console w ++ [LogClient (Some c)])%list;
        response := response w |}).
Proof.
  intros H Hr. unfold getAuth, bind, refusal. rewrite (find_client_found _ _ _ _ H).
  destruct (redirect_uris c) as [list|]; [|reflexivity].
  rewrite Hr. reflexivity.
Qed.

Lemma refusal_listed (c : Client) (list : string) :
  redirect_uris c = Some list ->
  refusal c = OidcBadRequestException Oauth2AndOidcErrorsEnum.invalid_request
                                      AuthRequestRequiredParamters.redirect_uri.
Proof. intro H. unfold refusal. now rewrite H. Qed.

Lemma isRedirectUri_listless (c : Client) (r : string) :
  redirect_uris c = None -> Js.truthy (isRedirectUri c r) = false.
Proof. intro H. unfold isRedirectUri. now rewrite H. Qed.

Lemma getAuth_accepts (c : Client) :
  findOne svc (Query.client_id q) = Resolved (Some c) ->
  Js.truthy (isRedirectUri c (Query.redirect_uri q)) = true ->
  getAuth svc req q w = (Normal (routeNext q), accepted req c q w).
Proof.
  intros H Hr.
  assert (Hl : exists list, redirect_uris c = Some list).
  { destruct (redirect_uris c) as [list|] eqn:E; [now exists list|].
    rewrite (isRedirectUri_listless c _ E) in Hr. discriminate Hr. }
  destruct Hl as [list Hl].
  unfold getAuth. unfold bind at 1.
  rewrite (find_client_found _ _ _ _ H). rewrite Hl, Hr. cbn [negb].
  unfold bind. cbv beta. rewrite save_interaction_run. unfold routeNext, accepted. simpl.
  destruct (match Query.prompt q with Some p => p =? AuthPrompt.create | None => false end);
    reflexivity.
Qed.
End GetAuth.

(** Whatever [getAuth] throws, it throws with the session as it found it. *)
Lemma getAuth_throw_keeps_session (svc : Services) (req : Request) (q : Query.t)
      (w : World) (t : Thrown) :
  fst (getAuth svc req q w) = Throw t ->
  session (snd (getAuth svc req q w)) = session w.
Proof.
  destruct (findOne svc (Query.client_id q)) as [[c|]|e] eqn:H.
  - destruct (Js.truthy (isRedirectUri c (Query.redirect_uri q))) eqn:Hr.
    + rewrite (getAuth_accepts _ _ _ _ _ H Hr). discriminate.
    + rewrite (getAuth_mismatch _ _ _ _ _ H Hr). reflexivity.
  - rewrite (getAuth_unknown _ _ _ _ H). reflexivity.
  - rewrite (getAuth_rejected _ _ _ _ _ H). reflexivity.
Qed.

(** ** The attempt counter *)

(** C1.  The claim is that a new authorization request on a session that
    already holds an interaction increments the interaction's login-attempt
    counter.  On the code, an accepted request stores the counter it found:
    a session that holds an interaction with a truthy counter [n] holds one
    with counter [n] afterwards (the postfix increment yields [n], and the
    object it increments is replaced), and a session without an interaction
    gets counter 1. *)
Theorem getAuth_stores_the_counter_it_found
        (svc : Services) (req : Request) (q : Query.t) (w : World) (c : Client) :
  findOne svc (Query.client_id q) = Resolved (Some c) ->
  Js.truthy (isRedirectUri c (Query.redirect_uri q)) = true ->
  exists i',
    interaction (session (snd (getAuth svc req q w))) = Some i'
    /\ (forall i n, interaction (session w) = Some i ->
                    loginAttempts i = Some n -> n <> 0%Z ->
                    loginAttempts i' = Some n)
    /\ (interaction (session w) = None -> loginAttempts i' = Some 1%Z).
Proof.
  intros H Hr. rewrite (getAuth_accepts _ _ _ _ _ H Hr).
  eexists. split; [reflexivity|]. simpl. unfold stored_attempts. split.
  - intros i n Hi Hn Hne. rewrite Hi, Hn.
    destruct (Z.eqb_spec n 0); [contradiction | reflexivity].
  - intros Hi. rewrite Hi. reflexivity.
Qed.

Lemma getAuth_stores_the_counter_it_found_witness :
  exists i',
    interaction
      (session
         (snd (getAuth Demo.services Demo.request
                 (Demo.query "https://app.example/cb" [ResponseTypeEnum.code])
                 (Demo.pending "https://app.example/cb" [ResponseTypeEnum.code]))))
    = Some i'
    /\ loginAttempts i' = Some 1%Z.
Proof.
  destruct (getAuth_stores_the_counter_it_found
              Demo.services Demo.request
              (Demo.query "https://app.example/cb" [ResponseTypeEnum.code])
              (Demo.pending "https://app.example/cb" [ResponseTypeEnum.code])
              Demo.app eq_refl eq_refl) as [i' [Hi' [Hkept _]]].
  exists i'. split; [exact Hi'|].
  apply (Hkept (new_interaction 1 Demo.request Demo.app
                  (Demo.query "https://app.example/cb" [ResponseTypeEnum.code])) 1%Z);
    [reflexivity | reflexivity | discriminate].
Defined.

(** ** Validation *)

(** C6.  The claim is that every redirect_uri that is not, byte for byte,
    one of the client's registered redirect URIs is rejected with
    invalid_request naming the redirect_uri parameter, also when the
    registered set is empty or malformed.  On the code this holds for a
    client whose record holds the list as a string: a request is accepted
    only when its redirect_uri is one of the pieces of that string, any
    other string is rejected with invalid_request naming redirect_uri, and
    so is every request when the string is empty; a registered, non-empty
    redirect_uri is accepted.  A client whose record holds no such string is
    never accepted either, yet is not rejected with invalid_request: the
    handler throws an error of its own, with the session untouched. *)
Theorem redirect_uri_exact_match
        (svc : Services) (req : Request) (q : Query.t) (w : World) (c : Client) :
  findOne svc (Query.client_id q) = Resolved (Some c) ->
  ((exists r, fst (getAuth svc req q w) = Normal r) ->
   In (Query.redirect_uri q) (registered c))
  /\ (forall list, redirect_uris c = Some list ->
      ~ In (Query.redirect_uri q) (registered c) ->
      fst (getAuth svc req q w)
      = Throw (OidcBadRequestException Oauth2AndOidcErrorsEnum.invalid_request
                                       AuthRequestRequiredParamters.redirect_uri))
  /\ (redirect_uris c = Some "" ->
      fst (getAuth svc req q w)
      = Throw (OidcBadRequestException Oauth2AndOidcErrorsEnum.invalid_request
                                       AuthRequestRequiredParamters.redirect_uri))
  /\ (In (Query.redirect_uri q) (registered c) -> Query.redirect_uri q <> "" ->
      fst (getAuth svc req q w) = Normal (routeNext q))
  /\ (redirect_uris c = None ->
      (exists e, fst (getAuth svc req q w) = Throw (Uncaught e))
      /\ session (snd (getAuth svc req q w)) = session w).
Proof.
  intro H. split; [|split; [|split; [|split]]].
  - intros [r Hr].
    destruct (Js.truthy (isRedirectUri c (Query.redirect_uri q))) eqn:E.
    + apply isRedirectUri_truthy in E. apply E.
    + rewrite (getAuth_mismatch _ _ _ _ _ H E) in Hr. discriminate.
  - intros list Hl Hn.
    rewrite (getAuth_mismatch _ _ _ _ _ H (isRedirectUri_unregistered _ _ Hn)).
    cbn [fst]. now rewrite (refusal_listed c list Hl).
  - intro Hempty.
    assert (E : Js.truthy (isRedirectUri c (Query.redirect_uri q)) = false).
    { destruct (Js.truthy (isRedirectUri c (Query.redirect_uri q))) eqn:E; [|reflexivity].
      apply isRedirectUri_truthy in E. destruct E as [Hin Hne].
      unfold registered in Hin. rewrite Hempty in Hin. simpl in Hin.
      destruct Hin as [Hin|[]]. symmetry in Hin. contradiction. }
    rewrite (getAuth_mismatch _ _ _ _ _ H E).
    cbn [fst]. now rewrite (refusal_listed c "" Hempty).
  - intros Hin Hne.
    assert (E : Js.truthy (isRedirectUri c (Query.redirect_uri q)) = true)
      by (apply isRedirectUri_truthy; split; assumption).
    rewrite (getAuth_accepts _ _ _ _ _ H E). reflexivity.
  - intro Hl.
    rewrite (getAuth_mismatch _ _ _ _ _ H (isRedirectUri_listless c _ Hl)).
    unfold refusal. rewrite Hl. split; [eexists|]; reflexivity.
Qed.

Lemma redirect_uri_exact_match_witness :
  fst (getAuth Demo.services Demo.request
         (Demo.query "https://app.example/cb/" [ResponseTypeEnum.code]) Demo.fresh)
  = Throw (OidcBadRequestException Oauth2AndOidcErrorsEnum.invalid_request
                                   AuthRequestRequiredParamters.redirect_uri).
Proof.
  apply (proj1 (proj2 (redirect_uri_exact_match Demo.services Demo.request
                         (Demo.query "https://app.example/cb/" [ResponseTypeEnum.code])
                         Demo.fresh Demo.app eq_refl))
           "https://app.example/cb,https://app.example/cb?tenant=7" eq_refl).
  vm_compute. intros [E|[E|[]]]; discriminate E.
Defined.

(** The run the claim fails on: the registered set is malformed, the
    client's record holding no list at all, and the request is refused with
    an error that is not invalid_request. *)
Lemma listless_client_not_invalid_request :
  (exists e,
      fst (getAuth Cases.unlisted Demo.request
             (Demo.query "https://app.example/cb" [ResponseTypeEnum.code]) Demo.fresh)
      = Throw (Uncaught e))
  /\ fst (getAuth Cases.unlisted Demo.request
            (Demo.query "https://app.example/cb" [ResponseTypeEnum.code]) Demo.fresh)
     <> Throw (OidcBadRequestException Oauth2AndOidcErrorsEnum.invalid_request
                                       AuthRequestRequiredParamters.redirect_uri).
Proof.
  split; [eexists; reflexivity | discriminate].
Qed.

Example scheme_variant_rejected :
  fst (getAuth Demo.services Demo.request
         (Demo.query "http://app.example/cb" [ResponseTypeEnum.code]) Demo.fresh)
  = Throw (OidcBadRequestException Oauth2AndOidcErrorsEnum.invalid_request
                                   AuthRequestRequiredParamters.redirect_uri).
Proof. reflexivity. Qed.

Example prefix_rejected :
  fst (getAuth Demo.services Demo.request
         (Demo.query "https://app.example/c" [ResponseTypeEnum.code]) Demo.fresh)
  = Throw (OidcBadRequestException Oauth2AndOidcErrorsEnum.invalid_request
                                   AuthRequestRequiredParamters.redirect_uri).
Proof. reflexivity. Qed.

(** C7.  Client resolution fails with unauthorized_client both when the
    registry knows no such client and when the lookup itself fails; the
    exception thrown is the same in both cases, and so are the session and
    the response the caller is left with. *)
Theorem unknown_client_and_failed_lookup_alike
        (known broken : Services) (req : Request) (q : Query.t) (w : World)
        (e : JsError) :
  findOne known (Query.client_id q) = Resolved None ->
  findOne broken (Query.client_id q) = Rejected e ->
  fst (getAuth known req q w)
  = Throw (OidcBadRequestException Oauth2AndOidcErrorsEnum.unauthorized_client
                                   AuthRequestRequiredParamters.client_id)
  /\ fst (getAuth broken req q w) = fst (getAuth known req q w)
  /\ session (snd (getAuth broken req q w)) = session (snd (getAuth known req q w))
  /\ response (snd (getAuth broken req q w)) = response (snd (getAuth known req q w)).
Proof.
  intros Hk Hb.
  rewrite (getAuth_unknown _ _ _ _ Hk), (getAuth_rejected _ _ _ _ _ Hb).
  repeat split; reflexivity.
Qed.

Lemma unknown_client_and_failed_lookup_alike_witness :
  fst (getAuth Demo.offline Demo.request Demo.nobody Demo.fresh)
  = fst (getAuth Demo.services Demo.request Demo.nobody Demo.fresh).
Proof.
  apply (proj1 (proj2 (unknown_client_and_failed_lookup_alike
                         Demo.services Demo.offline Demo.request Demo.nobody Demo.fresh
                         {| message := "connect ECONNREFUSED" |} eq_refl eq_refl))).
Defined.

(** C10.  An authorization request that fails validation in [getAuth]
    (unknown client_id, failed registry lookup, or a redirect_uri that is
    not registered) makes the handler throw with the session untouched:
    the interaction and its counter are what they were before. *)
Theorem failed_validation_keeps_session
        (svc : Services) (req : Request) (q : Query.t) (w : World) :
  findOne svc (Query.client_id q) = Resolved None
  \/ (exists e, findOne svc (Query.client_id q) = Rejected e)
  \/ (exists c, findOne svc (Query.client_id q) = Resolved (Some c)
                /\ ~ In (Query.redirect_uri q) (registered c)) ->
  (exists t, fst (getAuth svc req q w) = Throw t)
  /\ session (snd (getAuth svc req q w)) = session w.
Proof.
  intros [H|[[e H]|[c [H Hn]]]].
  - rewrite (getAuth_unknown _ _ _ _ H). split; [eexists|]; reflexivity.
  - rewrite (getAuth_rejected _ _ _ _ _ H). split; [eexists|]; reflexivity.
  - rewrite (getAuth_mismatch _ _ _ _ _ H (isRedirectUri_unregistered _ _ Hn)).
    split; [eexists|]; reflexivity.
Qed.

Lemma failed_validation_keeps_session_witness :
  session
    (snd (getAuth Demo.services Demo.request
            (Demo.query "https://elsewhere.example/cb" [ResponseTypeEnum.code])
            (Demo.pending "https://app.example/cb" [ResponseTypeEnum.code])))
  = session (Demo.pending "https://app.example/cb" [ResponseTypeEnum.code]).
Proof.
  apply (fun H => proj2 (failed_validation_keeps_session Demo.services Demo.request
           (Demo.query "https://elsewhere.example/cb" [ResponseTypeEnum.code])
           (Demo.pending "https://app.example/cb" [ResponseTypeEnum.code]) H)).
  right. right. exists Demo.app. split; [reflexivity|].
  vm_compute. intros [E|[E|[]]]; discriminate E.
Defined.

(** ** POST /auth/login *)

(** C5.  When the pending response_type holds both code and id_token and
    the signer fails on the id_token, the login submission throws, carrying
    the signer's message, and the code minted before the failure stays
    recorded on the session's interaction: nothing else is recorded and
    nothing is redirected. *)
Theorem id_token_failure_keeps_code
        (svc : Services) (dto : LoginDto.t) (w : World) (i : InteractionModel)
        (rt : list ResponseTypeEnum.t) (user : Account) (e : JsError) :
  interaction (session w) = Some i ->
  response_type i = Some rt ->
  In ResponseTypeEnum.code rt ->
  In ResponseTypeEnum.id_token rt ->
  Js.truthy (LoginDto.email dto) = true ->
  loginWithEmail svc (to_string (LoginDto.email dto)) (LoginDto.password dto)
  = Resolved user ->
  createIdToken svc user (client i) (scope i) = Rejected e ->
  fst (postLogin svc dto w) = Throw (user_not_found e)
  /\ interaction (session (snd (postLogin svc dto w)))
     = Some (set_code (Some (uuidv4 svc)) i)
  /\ response (snd (postLogin svc dto w)) = response w.
Proof.
  intros Hi Hrt Hc Ht He Hu Hs.
  apply wants_In in Hc. apply wants_In in Ht.
  destruct w as [[i0 em pw] l r]. simpl in Hi. subst i0.
  run_eff. rewrite Hrt, He, Hu, Hc, Ht. cbn. rewrite Hs. cbn.
  repeat split; reflexivity.
Qed.

Lemma id_token_failure_keeps_code_witness :
  interaction
    (session
       (snd (postLogin Demo.keyless Demo.login
               (Demo.pending "https://app.example/cb"
                  [ResponseTypeEnum.code; ResponseTypeEnum.id_token]))))
  = Some (set_code (Some Demo.uuid)
            (new_interaction 1 Demo.request Demo.app
               (Demo.query "https://app.example/cb"
                  [ResponseTypeEnum.code; ResponseTypeEnum.id_token]))).
Proof.
  apply (proj1 (proj2 (id_token_failure_keeps_code
                         Demo.keyless Demo.login
                         (Demo.pending "https://app.example/cb"
                            [ResponseTypeEnum.code; ResponseTypeEnum.id_token])
                         (new_interaction 1 Demo.request Demo.app
                            (Demo.query "https://app.example/cb"
                               [ResponseTypeEnum.code; ResponseTypeEnum.id_token]))
                         [ResponseTypeEnum.code; ResponseTypeEnum.id_token]
                         Demo.alice {| message := "no signing key" |}
                         eq_refl eq_refl
                         (or_introl eq_refl) (or_intror (or_introl eq_refl))
                         eq_refl eq_refl eq_refl))).
Defined.

(** C4.  The claim is that a signer failure during issuance reaches the
    caller as a server error, a category of its own.  On the code, the
    [catch] around the whole submission turns it into the exception thrown
    for a credential mismatch: an [UnauthorizedException] of category
    mc.user_not_found, equal to the one a failing verifier with the same
    message produces. *)
Theorem signer_failure_thrown_as_user_not_found
        (signing verifying : Services) (dto : LoginDto.t) (w : World)
        (i : InteractionModel) (rt : list ResponseTypeEnum.t) (user : Account)
        (e : JsError) :
  interaction (session w) = Some i ->
  response_type i = Some rt ->
  Js.truthy (LoginDto.email dto) = true ->
  loginWithEmail signing (to_string (LoginDto.email dto)) (LoginDto.password dto)
  = Resolved user ->
  (In ResponseTypeEnum.id_token rt
   /\ createIdToken signing user (client i) (scope i) = Rejected e)
  \/ (In ResponseTypeEnum.token rt
      /\ (In ResponseTypeEnum.id_token rt ->
          exists t, createIdToken signing user (client i) (scope i) = Resolved t)
      /\ createAccessToken signing user (client i) = Rejected e) ->
  loginWithEmail verifying (to_string (LoginDto.email dto)) (LoginDto.password dto)
  = Rejected e ->
  fst (postLogin signing dto w)
  = Throw (UnauthorizedException
             {| category := "mc.user_not_found";
                body_message := "The user could not be found";
                original_error := Some (message e) |}
             "The user could not be found")
  /\ fst (postLogin verifying dto w) = fst (postLogin signing dto w).
Proof.
  intros Hi Hrt He Hu Hs Hv.
  destruct w as [[i0 em pw] l r]. simpl in Hi. subst i0.
  assert (Hbad : fst (postLogin verifying dto
                        {| session := {| interaction := Some i; email := em;
                                         password := pw |};
                           console := l; response := r |})
                 = Throw (user_not_found e)).
  { run_eff. rewrite Hrt, He, Hv. reflexivity. }
  rewrite Hbad. fold (user_not_found e).
  enough (fst (postLogin signing dto
                 {| session := {| interaction := Some i; email := em; password := pw |};
                    console := l; response := r |})
          = Throw (user_not_found e)) as ->
      by (split; reflexivity).
  run_eff. rewrite Hrt, He, Hu.
  destruct Hs as [[Ht Hs]|[Ha [Ht Hs]]].
  - apply wants_In in Ht. rewrite Ht.
    destruct (wants rt ResponseTypeEnum.code); cbn; rewrite Hs; reflexivity.
  - apply wants_In in Ha. rewrite Ha.
    destruct (wants rt ResponseTypeEnum.id_token) eqn:Hw.
    + apply wants_In in Hw. destruct (Ht Hw) as [t Hr].
      destruct (wants rt ResponseTypeEnum.code); cbn; rewrite Hr; cbn; rewrite Hs;
        reflexivity.
    + destruct (wants rt ResponseTypeEnum.code); cbn; rewrite Hs; reflexivity.
Qed.

Lemma signer_failure_thrown_as_user_not_found_witness :
  fst (postLogin (Demo.strangers "no signing key") Demo.login
         (Demo.pending "https://app.example/cb" [ResponseTypeEnum.id_token]))
  = fst (postLogin Demo.keyless Demo.login
           (Demo.pending "https://app.example/cb" [ResponseTypeEnum.id_token])).
Proof.
  apply (proj2 (signer_failure_thrown_as_user_not_found
                  Demo.keyless (Demo.strangers "no signing key") Demo.login
                  (Demo.pending "https://app.example/cb" [ResponseTypeEnum.id_token])
                  (new_interaction 1 Demo.request Demo.app
                     (Demo.query "https://app.example/cb" [ResponseTypeEnum.id_token]))
                  [ResponseTypeEnum.id_token] Demo.alice
                  {| message := "no signing key" |}
                  eq_refl eq_refl eq_refl eq_refl
                  (or_introl (conj (or_introl eq_refl) eq_refl))
                  eq_refl)).
Defined.

(** ** The interaction-dependent endpoints *)

(** C2.  The claim is that the login page, the registration page and the
    login submission all fail when the session holds no interaction.  On
    the code, the login page and the login submission throw, and the
    registration page, which has no such check, renders. *)
Theorem register_renders_without_interaction
        (svc : Services) (dto : LoginDto.t) (w : World) :
  interaction (session w) = None ->
  getLogin w
  = (Throw (OidcBadRequestException Oauth2AndOidcErrorsEnum.unauthorized_client
                                    AuthRequestRequiredParamters.client_id), w)
  /\ postLogin svc dto w = (Throw invalid_session, w)
  /\ getRegister w
     = (Normal {| View.email := "@todo - from session and/or cookie";
                  View.password := "@todo - from session and/or cookie";
                  View.postUri := "/auth/register";
                  View.locals := None |}, w).
Proof.
  intro H. unfold getLogin, getRegister, lacks_client. run_eff.
  rewrite H. repeat split; reflexivity.
Qed.

Lemma register_renders_without_interaction_witness :
  getRegister Demo.fresh
  = (Normal {| View.email := "@todo - from session and/or cookie";
               View.password := "@todo - from session and/or cookie";
               View.postUri := "/auth/register";
               View.locals := None |}, Demo.fresh).
Proof.
  apply (proj2 (proj2 (register_renders_without_interaction
                         Demo.services Demo.login Demo.fresh eq_refl))).
Defined.

(** ** Issuance *)

(** With an interaction in the session and a signer that signs, issuance
    returns a login response. *)
Lemma issue_returns (svc : Services) (rt : list ResponseTypeEnum.t) (user : Account)
      (w : World) (i : InteractionModel) :
  interaction (session w) = Some i ->
  (In ResponseTypeEnum.id_token rt ->
   exists t, createIdToken svc user (client i) (scope i) = Resolved t) ->
  (In ResponseTypeEnum.token rt ->
   exists t, createAccessToken svc user (client i) = Resolved t) ->
  exists r, fst (issue svc rt user w) = Normal r.
Proof.
  intros Hi Hid Hat. destruct w as [[i0 em pw] l r]. simpl in Hi. subst i0.
  rewrite <- wants_In in Hid, Hat. run_eff.
  destruct (wants rt ResponseTypeEnum.code);
    destruct (wants rt ResponseTypeEnum.id_token);
    destruct (wants rt ResponseTypeEnum.token); cbn;
    try (destruct (Hid eq_refl) as [t1 ->]; cbn);
    try (destruct (Hat eq_refl) as [t2 ->]; cbn);
    eexists; reflexivity.
Qed.

(** What issuance returns and records, member by member. *)
Lemma issue_result (svc : Services) (rt : list ResponseTypeEnum.t) (user : Account)
      (w : World) (i : InteractionModel) (lr : LoginResponseDto.t) :
  interaction (session w) = Some i ->
  fst (issue svc rt user w) = Normal lr ->
  LoginResponseDto.state lr = (if Js.truthy (state i) then state i else None)
  /\ LoginResponseDto.nonce lr = (if Js.truthy (nonce i) then nonce i else None)
  /\ exists i',
       interaction (session (snd (issue svc rt user w))) = Some i'
       /\ code i' = (if wants rt ResponseTypeEnum.code
                     then LoginResponseDto.code lr else code i)
       /\ id_token i' = (if wants rt ResponseTypeEnum.id_token
                         then LoginResponseDto.id_token lr else id_token i)
       /\ access_token i' = (if wants rt ResponseTypeEnum.token
                             then LoginResponseDto.access_token lr
                             else access_token i).
Proof.
  intros Hi H. destruct w as [[i0 em pw] l r]. simpl in Hi. subst i0.
  revert H. run_eff.
  destruct (wants rt ResponseTypeEnum.code);
    destruct (wants rt ResponseTypeEnum.id_token);
    destruct (wants rt ResponseTypeEnum.token); cbn;
    repeat match goal with
           | |- context [createIdToken ?a ?b ?c ?d] =>
               destruct (createIdToken a b c d); cbn
           | |- context [createAccessToken ?a ?b ?c] =>
               destruct (createAccessToken a b c); cbn
           end;
    try discriminate;
    destruct (Js.truthy (state i)); destruct (Js.truthy (nonce i));
    intro H; injection H as <-; cbn;
    (split; [reflexivity|]); (split; [reflexivity|]);
    eexists; (split; [reflexivity|]); cbn; repeat split; reflexivity.
Qed.

(** Issuance returns only on a session that holds an interaction. *)
Lemma issue_needs_interaction (svc : Services) (rt : list ResponseTypeEnum.t)
      (user : Account) (w : World) (r : LoginResponseDto.t) :
  fst (issue svc rt user w) = Normal r ->
  exists i, interaction (session w) = Some i.
Proof.
  destruct w as [[[i|] em pw] l rs]; [intros _; now exists i|].
  run_eff.
  destruct (wants rt ResponseTypeEnum.code);
    destruct (wants rt ResponseTypeEnum.id_token);
    destruct (wants rt ResponseTypeEnum.token); cbn; discriminate.
Qed.

(** The members of the login response, value by value: the code is the
    uuid that was drawn, each token the one the signer resolved to. *)
Lemma issue_members (svc : Services) (rt : list ResponseTypeEnum.t) (user : Account)
      (w : World) (i : InteractionModel) (r : LoginResponseDto.t) :
  interaction (session w) = Some i ->
  fst (issue svc rt user w) = Normal r ->
  LoginResponseDto.code r
  = (if wants rt ResponseTypeEnum.code then Some (uuidv4 svc) else None)
  /\ (if wants rt ResponseTypeEnum.id_token
      then exists t, createIdToken svc user (client i) (scope i) = Resolved t
                     /\ LoginResponseDto.id_token r = Some t
      else LoginResponseDto.id_token r = None)
  /\ (if wants rt ResponseTypeEnum.token
      then exists t, createAccessToken svc user (client i) = Resolved t
                     /\ LoginResponseDto.access_token r = Some t
      else LoginResponseDto.access_token r = None).
Proof.
  intros Hi H. destruct w as [[i0 em pw] l rs]. simpl in Hi. subst i0.
  revert H. run_eff.
  destruct (wants rt ResponseTypeEnum.code);
    destruct (wants rt ResponseTypeEnum.id_token);
    destruct (wants rt ResponseTypeEnum.token); cbn;
    try (destruct (createIdToken svc user (client i) (scope i)) as [t1|e1] eqn:E1;
         cbn; [|discriminate]);
    try (destruct (createAccessToken svc user (client i)) as [t2|e2] eqn:E2;
         cbn; [|discriminate]);
    destruct (Js.truthy (state i)); destruct (Js.truthy (nonce i));
    intro H; injection H as <-; cbn;
    repeat split; try (eexists; split; reflexivity).
Qed.

(** C8.  The login response issuance returns holds a code exactly when the
    response_type holds code, an id_token exactly when it holds id_token and
    an access_token exactly when it holds token; a state or a nonce in it is
    the one on the session's interaction; and for the response_type [code]
    alone it holds neither id_token nor access_token.  Value by value: the
    code is the uuid drawn for this issuance, the id_token and the
    access_token are the strings the signer resolved to, a member that was
    not asked for is absent, and the state and the nonce are the
    interaction's when those are non-empty strings and absent otherwise. *)
Theorem grant_result_members
        (svc : Services) (rt : list ResponseTypeEnum.t) (user : Account)
        (w : World) (r : LoginResponseDto.t) :
  fst (issue svc rt user w) = Normal r ->
  (LoginResponseDto.code r <> None <-> In ResponseTypeEnum.code rt)
  /\ (LoginResponseDto.id_token r <> None <-> In ResponseTypeEnum.id_token rt)
  /\ (LoginResponseDto.access_token r <> None <-> In ResponseTypeEnum.token rt)
  /\ (forall s, LoginResponseDto.state r = Some s ->
                exists i, interaction (session w) = Some i /\ state i = Some s)
  /\ (forall n, LoginResponseDto.nonce r = Some n ->
                exists i, interaction (session w) = Some i /\ nonce i = Some n)
  /\ (rt = [ResponseTypeEnum.code] ->
      LoginResponseDto.id_token r = None /\ LoginResponseDto.access_token r = None)
  /\ (exists i,
        interaction (session w) = Some i
        /\ (In ResponseTypeEnum.code rt ->
            LoginResponseDto.code r = Some (uuidv4 svc))
        /\ (~ In ResponseTypeEnum.code rt -> LoginResponseDto.code r = None)
        /\ (In ResponseTypeEnum.id_token rt ->
            exists t, createIdToken svc user (client i) (scope i) = Resolved t
                      /\ LoginResponseDto.id_token r = Some t)
        /\ (~ In ResponseTypeEnum.id_token rt -> LoginResponseDto.id_token r = None)
        /\ (In ResponseTypeEnum.token rt ->
            exists t, createAccessToken svc user (client i) = Resolved t
                      /\ LoginResponseDto.access_token r = Some t)
        /\ (~ In ResponseTypeEnum.token rt -> LoginResponseDto.access_token r = None)
        /\ LoginResponseDto.state r = (if Js.truthy (state i) then state i else None)
        /\ LoginResponseDto.nonce r = (if Js.truthy (nonce i) then nonce i else None)).
Proof.
  intro H.
  assert (Hpins :
    exists i,
      interaction (session w) = Some i
      /\ (In ResponseTypeEnum.code rt ->
          LoginResponseDto.code r = Some (uuidv4 svc))
      /\ (~ In ResponseTypeEnum.code rt -> LoginResponseDto.code r = None)
      /\ (In ResponseTypeEnum.id_token rt ->
          exists t, createIdToken svc user (client i) (scope i) = Resolved t
                    /\ LoginResponseDto.id_token r = Some t)
      /\ (~ In ResponseTypeEnum.id_token rt -> LoginResponseDto.id_token r = None)
      /\ (In ResponseTypeEnum.token rt ->
          exists t, createAccessToken svc user (client i) = Resolved t
                    /\ LoginResponseDto.access_token r = Some t)
      /\ (~ In ResponseTypeEnum.token rt -> LoginResponseDto.access_token r = None)
      /\ LoginResponseDto.state r = (if Js.truthy (state i) then state i else None)
      /\ LoginResponseDto.nonce r = (if Js.truthy (nonce i) then nonce i else None)).
  { destruct (issue_needs_interaction svc rt user w r H) as [i Hi].
    destruct (issue_members svc rt user w i r Hi H) as (Hc & Ht & Ha).
    destruct (issue_result svc rt user w i r Hi H) as (Hs & Hn & _).
    exists i. split; [exact Hi|]. rewrite <- !wants_In.
    destruct (wants rt ResponseTypeEnum.code);
      destruct (wants rt ResponseTypeEnum.id_token);
      destruct (wants rt ResponseTypeEnum.token);
      repeat split; intros; try assumption; try discriminate;
      try (exfalso; auto; fail). }
  assert (Hmain :
    (LoginResponseDto.code r <> None <-> wants rt ResponseTypeEnum.code = true)
    /\ (LoginResponseDto.id_token r <> None <-> wants rt ResponseTypeEnum.id_token = true)
    /\ (LoginResponseDto.access_token r <> None <-> wants rt ResponseTypeEnum.token = true)
    /\ (forall s, LoginResponseDto.state r = Some s ->
                  exists i, interaction (session w) = Some i /\ state i = Some s)
    /\ (forall n, LoginResponseDto.nonce r = Some n ->
                  exists i, interaction (session w) = Some i /\ nonce i = Some n)).
  { destruct w as [[[i|] em pw] l rs]; run_eff.
    - destruct (wants rt ResponseTypeEnum.code);
        destruct (wants rt ResponseTypeEnum.id_token);
        destruct (wants rt ResponseTypeEnum.token); cbn in H;
        repeat match type of H with
               | context [createIdToken ?a ?b ?c ?d] =>
                   destruct (createIdToken a b c d); cbn in H
               | context [createAccessToken ?a ?b ?c] =>
                   destruct (createAccessToken a b c); cbn in H
               end;
        try discriminate H;
        destruct (Js.truthy (state i)) eqn:Es;
        destruct (Js.truthy (nonce i)) eqn:En;
        injection H as <-; cbn;
        repeat split; try discriminate; try congruence;
        try (intros s Hs; exists i; split; [reflexivity | congruence]);
        try (intros [] ; fail).
    - destruct (wants rt ResponseTypeEnum.code);
        destruct (wants rt ResponseTypeEnum.id_token);
        destruct (wants rt ResponseTypeEnum.token); cbn in H; discriminate H. }
  destruct Hmain as (Hc & Hi & Ha & Hs & Hn).
  rewrite wants_In in Hc, Hi, Ha.
  split; [exact Hc|]. split; [exact Hi|]. split; [exact Ha|].
  split; [exact Hs|]. split; [exact Hn|]. split; [|exact Hpins].
  intros ->. split.
  - destruct (LoginResponseDto.id_token r) eqn:E; [|reflexivity].
    assert (Hin : In ResponseTypeEnum.id_token [ResponseTypeEnum.code])
      by (apply Hi; discriminate).
    destruct Hin as [Hin|[]]. discriminate Hin.
  - destruct (LoginResponseDto.access_token r) eqn:E; [|reflexivity].
    assert (Hin : In ResponseTypeEnum.token [ResponseTypeEnum.code])
      by (apply Ha; discriminate).
    destruct Hin as [Hin|[]]. discriminate Hin.
Qed.

Lemma grant_result_members_witness :
  LoginResponseDto.id_token
    {| LoginResponseDto.code := Some Demo.uuid;
       LoginResponseDto.access_token := None;
       LoginResponseDto.id_token := None;
       LoginResponseDto.state := None;
       LoginResponseDto.nonce := None |} = None
  /\ LoginResponseDto.access_token
       {| LoginResponseDto.code := Some Demo.uuid;
          LoginResponseDto.access_token := None;
          LoginResponseDto.id_token := None;
          LoginResponseDto.state := None;
          LoginResponseDto.nonce := None |} = None.
Proof.
  apply (grant_result_members
           Demo.services [ResponseTypeEnum.code] Demo.alice
           (Demo.pending "https://app.example/cb" [ResponseTypeEnum.code])
           {| LoginResponseDto.code := Some Demo.uuid;
              LoginResponseDto.access_token := None;
              LoginResponseDto.id_token := None;
              LoginResponseDto.state := None;
              LoginResponseDto.nonce := None |}
           eq_refl).
  reflexivity.
Defined.

Example hybrid_issue :
  fst (issue Demo.services
         [ResponseTypeEnum.code; ResponseTypeEnum.id_token; ResponseTypeEnum.token]
         Demo.alice
         (Demo.pending "https://app.example/cb"
            [ResponseTypeEnum.code; ResponseTypeEnum.id_token; ResponseTypeEnum.token]))
  = Normal {| LoginResponseDto.code := Some Demo.uuid;
              LoginResponseDto.access_token :=
                Some "eyJhbGciOiJSUzI1NiJ9.eyJhdCI6MX0.c2ln";
              LoginResponseDto.id_token :=
                Some "eyJhbGciOiJSUzI1NiJ9.eyJzdWIiOiJhbGljZSJ9.c2ln";
              LoginResponseDto.state := None;
              LoginResponseDto.nonce := None |}.
Proof. reflexivity. Qed.

(** What issuance leaves in the session: the interaction it found, with at
    most the tokens changed, and the code it minted when one was asked
    for.  The console and the response are not touched. *)
Lemma issue_world (svc : Services) (rt : list ResponseTypeEnum.t) (user : Account)
      (w : World) (i : InteractionModel) :
  interaction (session w) = Some i ->
  exists i',
    interaction (session (snd (issue svc rt user w))) = Some i'
    /\ same_request i i'
    /\ (In ResponseTypeEnum.code rt -> code i' = Some (uuidv4 svc))
    /\ (~ In ResponseTypeEnum.code rt -> code i' = code i)
    /\ redirect_uri i' = redirect_uri i
    /\ email (session (snd (issue svc rt user w))) = email (session w)
    /\ password (session (snd (issue svc rt user w))) = password (session w)
    /\ console (snd (issue svc rt user w)) = console w
    /\ response (snd (issue svc rt user w)) = response w.
Proof.
  intros Hi. destruct w as [[i0 em pw] l r]. simpl in Hi. subst i0.
  setoid_rewrite <- wants_In. run_eff.
  destruct (wants rt ResponseTypeEnum.code);
    destruct (wants rt ResponseTypeEnum.id_token);
    destruct (wants rt ResponseTypeEnum.token); cbn;
    repeat match goal with
           | |- context [createIdToken ?a ?b ?c ?d] =>
               destruct (createIdToken a b c d); cbn
           | |- context [createAccessToken ?a ?b ?c] =>
               destruct (createAccessToken a b c); cbn
           end;
    eexists; (split; [reflexivity|]); unfold same_request; cbn;
    repeat split; try reflexivity; try congruence; try (intros; exfalso; auto; fail).
Qed.

(** ** After the redirect *)

(** C3.  The claim is that the login submission clears the session's
    interaction once it has redirected.  On the code nothing clears it:
    when the submission has issued a redirect, the session still holds the
    interaction it held before, the same but for the tokens recorded on it,
    with the minted code when code was asked for. *)
Theorem interaction_survives_redirect
        (svc : Services) (dto : LoginDto.t) (w : World) (target : string) :
  response w = None ->
  response (snd (postLogin svc dto w)) = Some target ->
  fst (postLogin svc dto w) = Normal tt
  /\ exists i i',
       interaction (session w) = Some i
       /\ interaction (session (snd (postLogin svc dto w))) = Some i'
       /\ same_request i i'
       /\ (forall rt, response_type i = Some rt -> In ResponseTypeEnum.code rt ->
                      code i' = Some (uuidv4 svc)).
Proof.
  intros Hnone Hsome.
  destruct w as [[i0 em pw] l r]. simpl in Hnone. subst r.
  unfold postLogin, bind, get_session, put_session, try_catch, await,
    pending_response_type, ret, throw in *.
  cbn [session interaction console response] in *.
  destruct i0 as [i|]; [|discriminate Hsome].
  destruct (response_type i) as [rt|] eqn:Hrt; [|discriminate Hsome].
  destruct (Js.truthy (LoginDto.email dto)); [|discriminate Hsome].
  cbn [fst snd] in *.
  destruct (loginWithEmail svc (to_string (LoginDto.email dto)) (LoginDto.password dto))
    as [user|e]; [|discriminate Hsome].
  unfold set_credentials in *.
  cbn [session interaction email password console response] in *.
  set (w1 := {| session := {| interaction := Some i;
                               email := LoginDto.email dto;
                               password := LoginDto.password dto |};
                console := l; response := None |}) in *.
  destruct (issue_world svc rt user w1 i eq_refl)
    as (i' & Hi' & Hsame & Hcode & _ & _ & _ & _ & _ & Hresp).
  destruct (issue svc rt user w1) as [[lr|e] w2]; cbn [fst snd] in *.
  - unfold redirect, read_interaction, bind, get_session, res_redirect, ret, throw in *.
    rewrite Hi' in *.
    destruct (new_URL svc (to_string (redirect_uri i'))) as [u|]; cbn [fst snd] in *.
    + split; [reflexivity|]. exists i, i'. cbn [session interaction].
      split; [reflexivity|]. split; [exact Hi'|]. split; [exact Hsame|].
      intros rt' Hrt' Hin. rewrite Hrt in Hrt'. injection Hrt' as <-. exact (Hcode Hin).
    + cbn in Hsome. rewrite Hresp in Hsome. discriminate Hsome.
  - cbn in Hsome. rewrite Hresp in Hsome. discriminate Hsome.
Qed.

Lemma interaction_survives_redirect_witness :
  exists i i',
    interaction (session (Demo.pending "https://app.example/cb" [ResponseTypeEnum.code]))
    = Some i
    /\ interaction
         (session
            (snd (postLogin Demo.services Demo.login
                    (Demo.pending "https://app.example/cb" [ResponseTypeEnum.code]))))
       = Some i'
    /\ same_request i i'
    /\ (forall rt, response_type i = Some rt -> In ResponseTypeEnum.code rt ->
                   code i' = Some (uuidv4 Demo.services)).
Proof.
  apply (proj2 (interaction_survives_redirect
                  Demo.services Demo.login
                  (Demo.pending "https://app.example/cb" [ResponseTypeEnum.code])
                  "https://app.example/cb?code=110ec58a-a0f2-4ac4-8393-c866d813b8d1"
                  eq_refl eq_refl)).
Defined.

(** The run the claim fails on: a completed grant, redirected, after which
    the session still holds the interaction. *)
Lemma interaction_not_cleared_after_redirect :
  fst (postLogin Demo.services Demo.login
         (Demo.pending "https://app.example/cb" [ResponseTypeEnum.code]))
  = Normal tt
  /\ response
       (snd (postLogin Demo.services Demo.login
               (Demo.pending "https://app.example/cb" [ResponseTypeEnum.code])))
     = Some "https://app.example/cb?code=110ec58a-a0f2-4ac4-8393-c866d813b8d1"
  /\ interaction
       (session
          (snd (postLogin Demo.services Demo.login
                  (Demo.pending "https://app.example/cb" [ResponseTypeEnum.code]))))
     <> None.
Proof.
  split; [reflexivity|]. split; [reflexivity|]. discriminate.
Qed.

(** ** The redirect *)

Lemma append_empty_r (s : string) : s ++ "" = s.
Proof. induction s as [|c s IH]; simpl; [reflexivity | now rewrite IH]. Qed.

Lemma unreserved_not_space (c : ascii) : URL.unreserved c = true -> Ascii.eqb c " " = false.
Proof.
  intro H. destruct (Ascii.eqb_spec c " ") as [->|]; [discriminate H | reflexivity].
Qed.

Lemma urlencode_plain (s : string) : plain s = true -> URL.urlencode s = s.
Proof.
  unfold plain. induction s as [|c s IH]; simpl; [reflexivity|].
  intro H. apply andb_prop in H. destruct H as [Hc Hs].
  rewrite (unreserved_not_space _ Hc), Hc. simpl. now rewrite IH.
Qed.

Lemma append_if_truthy_shape (name : string) (v : option string) (u : URL.t) :
  URL.base (append_if_truthy name v u) = URL.base u
  /\ URL.fragment (append_if_truthy name v u) = URL.fragment u
  /\ URL.searchParams (append_if_truthy name v u)
     = (URL.searchParams u ++ present name v)%list.
Proof.
  unfold append_if_truthy, present, Js.truthy.
  destruct v as [s|]; simpl; [destruct (s =? ""); simpl|];
    rewrite ?app_nil_r; repeat split; reflexivity.
Qed.

(** The assembler adds the present members, in its order, after the
    parameters the URL came with, and touches nothing else of the URL. *)
Lemma append_all_shape (r : LoginResponseDto.t) (u : URL.t) :
  URL.base (append_all r u) = URL.base u
  /\ URL.fragment (append_all r u) = URL.fragment u
  /\ URL.searchParams (append_all r u) = (URL.searchParams u ++ present_fields r)%list.
Proof.
  unfold append_all, present_fields. cbv zeta.
  repeat split.
  - repeat rewrite (proj1 (append_if_truthy_shape _ _ _)). reflexivity.
  - repeat rewrite (proj1 (proj2 (append_if_truthy_shape _ _ _))). reflexivity.
  - repeat rewrite (proj2 (proj2 (append_if_truthy_shape _ _ _))).
    rewrite <- !app_assoc. reflexivity.
Qed.

(** The URL a code-only login response yields from a URL that came with no
    query and no fragment. *)
Lemma href_code_only (r code : string) :
  code <> "" -> plain code = true ->
  URL.href
    (append_all
       {| LoginResponseDto.code := Some code;
          LoginResponseDto.access_token := None;
          LoginResponseDto.id_token := None;
          LoginResponseDto.state := None;
          LoginResponseDto.nonce := None |}
       (bare r))
  = r ++ "?code=" ++ code.
Proof.
  intros Hne Hplain. apply String.eqb_neq in Hne.
  unfold append_all, append_if_truthy, Js.truthy. cbn -[URL.append URL.href String.eqb].
  rewrite Hne. cbn -[URL.urlencode append String.eqb].
  unfold URL.append, URL.href, URL.serialize, URL.serialize_pair, bare.
  cbn -[append String.eqb URL.urlencode].
  rewrite (urlencode_plain code Hplain).
  change (URL.urlencode "code") with "code".
  cbn. rewrite append_empty_r. reflexivity.
Qed.

Lemma append_eq_empty (a b : string) : a ++ b = "" -> a = "" /\ b = "".
Proof. destruct a; simpl; [intros ->; split; reflexivity | discriminate]. Qed.

Lemma serialize_pair_not_empty (p : string * string) : URL.serialize_pair p <> "".
Proof.
  unfold URL.serialize_pair. intro H.
  apply append_eq_empty in H. destruct H as [_ H]. discriminate H.
Qed.

(** A query with a parameter in it is not the empty string. *)
Lemma serialize_not_empty (l : list (string * string)) :
  l <> [] -> URL.serialize l <> "".
Proof.
  destruct l as [|p l]; [contradiction|]. intros _ H.
  unfold URL.serialize in H. simpl in H.
  destruct (map URL.serialize_pair l).
  - now apply serialize_pair_not_empty in H.
  - apply append_eq_empty in H. destruct H as [H _].
    now apply serialize_pair_not_empty in H.
Qed.

Lemma append_query (name value : string) (u : URL.t) :
  URL.query (URL.append name value u)
  = Some (URL.serialize (URL.searchParams u ++ [(name, value)])).
Proof.
  unfold URL.append. cbn [URL.query].
  destruct (String.eqb_spec (URL.serialize (URL.searchParams u ++ [(name, value)])) "")
    as [E|]; [|reflexivity].
  apply serialize_not_empty in E; [contradiction|].
  destruct (URL.searchParams u); discriminate.
Qed.

(** Where the assembler stands after some of its steps: the parameters
    [l] added to [u], which is untouched when there are none and has its
    query rewritten from the whole list when there are some. *)
Lemma append_if_truthy_step (name : string) (v : option string)
      (u u' : URL.t) (l : list (string * string)) :
  URL.searchParams u' = (URL.searchParams u ++ l)%list ->
  (l = [] -> u' = u) ->
  (l <> [] -> URL.query u' = Some (URL.serialize (URL.searchParams u ++ l))) ->
  URL.searchParams (append_if_truthy name v u')
  = (URL.searchParams u ++ (l ++ present name v))%list
  /\ ((l ++ present name v)%list = [] -> append_if_truthy name v u' = u)
  /\ ((l ++ present name v)%list <> [] ->
      URL.query (append_if_truthy name v u')
      = Some (URL.serialize (URL.searchParams u ++ (l ++ present name v)))).
Proof.
  intros Hp Hsame Hq. unfold append_if_truthy, present, Js.truthy.
  destruct v as [s|]; [destruct (s =? ""); cbn [negb]|];
    rewrite ?app_nil_r;
    try (split; [exact Hp | split; [exact Hsame | exact Hq]]).
  split; [|split].
  - cbn. rewrite Hp. now rewrite app_assoc.
  - intro E. destruct l; discriminate E.
  - intros _. rewrite append_query, Hp. now rewrite app_assoc.
Qed.

Lemma append_all_query (r : LoginResponseDto.t) (u : URL.t) :
  (present_fields r = [] -> append_all r u = u)
  /\ (present_fields r <> [] ->
      URL.query (append_all r u)
      = Some (URL.serialize (URL.searchParams u ++ present_fields r))).
Proof.
  unfold append_all, present_fields. cbv zeta.
  assert (H0 : URL.searchParams u = (URL.searchParams u ++ [])%list
               /\ (@nil (string * string) = [] -> u = u)
               /\ (@nil (string * string) <> [] ->
                   URL.query u = Some (URL.serialize (URL.searchParams u ++ []))))
    by (split; [now rewrite app_nil_r | split; [reflexivity | contradiction]]).
  destruct H0 as (A0 & B0 & C0).
  destruct (append_if_truthy_step "code" (LoginResponseDto.code r) u u [] A0 B0 C0)
    as (A1 & B1 & C1).
  destruct (append_if_truthy_step "access_token" (LoginResponseDto.access_token r)
              u _ _ A1 B1 C1) as (A2 & B2 & C2).
  destruct (append_if_truthy_step "id_token" (LoginResponseDto.id_token r)
              u _ _ A2 B2 C2) as (A3 & B3 & C3).
  destruct (append_if_truthy_step "state" (LoginResponseDto.state r)
              u _ _ A3 B3 C3) as (A4 & B4 & C4).
  destruct (append_if_truthy_step "nonce" (LoginResponseDto.nonce r)
              u _ _ A4 B4 C4) as (_ & B5 & C5).
  cbn [app] in B5, C5. rewrite <- !app_assoc in B5, C5.
  split; assumption.
Qed.

(** The URL the assembler yields once it has added a parameter. *)
Lemma href_append_all (r : LoginResponseDto.t) (u : URL.t) :
  present_fields r <> [] ->
  URL.href (append_all r u) = with_parameters u (present_fields r).
Proof.
  intro Hne. destruct (append_all_shape r u) as (Hb & Hf & _).
  destruct (append_all_query r u) as (_ & Hq).
  unfold URL.href, with_parameters. rewrite Hb, Hf, (Hq Hne).
  destruct (URL.fragment u); reflexivity.
Qed.

(** C9.  The claim is that the final URL is the redirect_uri with the
    present members appended, and for a code-only grant equals
    redirect_uri + "?code=" + code.  On the code the members are appended
    to the parsed URL: the redirect target is the serialization of the
    parsed redirect_uri whose query parameters are the ones it came with
    followed by the present members of the login response, in the order
    code, access_token, id_token, state, nonce, and by nothing for an
    absent member; when a member is present the target is the parsed
    URL's scheme, authority and path, a question mark, the urlencoded query
    made of all those parameters, and the URL's fragment if it has one, and
    when none is present the target is the parsed URL as it is.  For
    response_type [code] without state and nonce the only added parameter
    is the code, and the target is redirect_uri + "?code=" + code when the
    redirect_uri parses to itself, with neither query nor fragment. *)
Theorem redirect_parameters
        (svc : Services) (dto : LoginDto.t) (w : World) (i : InteractionModel)
        (rt : list ResponseTypeEnum.t) (user : Account)
        (lr : LoginResponseDto.t) (u : URL.t) :
  interaction (session w) = Some i ->
  response_type i = Some rt ->
  Js.truthy (LoginDto.email dto) = true ->
  loginWithEmail svc (to_string (LoginDto.email dto)) (LoginDto.password dto)
  = Resolved user ->
  fst (issue svc rt user (submitted dto w)) = Normal lr ->
  new_URL svc (to_string (redirect_uri i)) = Some u ->
  response (snd (postLogin svc dto w)) = Some (URL.href (append_all lr u))
  /\ URL.base (append_all lr u) = URL.base u
  /\ URL.fragment (append_all lr u) = URL.fragment u
  /\ URL.searchParams (append_all lr u) = (URL.searchParams u ++ present_fields lr)%list
  /\ (rt = [ResponseTypeEnum.code] -> state i = None -> nonce i = None ->
      uuidv4 svc <> "" ->
      present_fields lr = [("code", uuidv4 svc)]
      /\ (forall r, redirect_uri i = Some r -> u = bare r ->
                    plain (uuidv4 svc) = true ->
                    response (snd (postLogin svc dto w))
                    = Some (r ++ "?code=" ++ uuidv4 svc)))
  /\ (present_fields lr = [] -> append_all lr u = u)
  /\ (present_fields lr <> [] ->
      URL.href (append_all lr u) = with_parameters u (present_fields lr))
  /\ (rt = [ResponseTypeEnum.code] -> state i = None -> nonce i = None ->
      uuidv4 svc <> "" ->
      response (snd (postLogin svc dto w))
      = Some (with_parameters u [("code", uuidv4 svc)])).
Proof.
  intros Hi Hrt He Hu Hlr Hurl.
  destruct w as [[i0 em pw] l r0]. simpl in Hi. subst i0.
  unfold submitted, set_credentials in Hlr.
  cbn [session interaction email password console response] in Hlr.
  assert (Hresp :
    response (snd (postLogin svc dto
                     {| session := {| interaction := Some i; email := em;
                                      password := pw |};
                        console := l; response := r0 |}))
    = Some (URL.href (append_all lr u))).
  { unfold postLogin, bind, get_session, put_session, try_catch, await,
      pending_response_type, ret, throw.
    cbn [session interaction console response].
    rewrite Hrt, He, Hu. unfold set_credentials.
    cbn [session interaction email password console response].
    set (w1 := {| session := {| interaction := Some i;
                                 email := LoginDto.email dto;
                                 password := LoginDto.password dto |};
                  console := l; response := r0 |}) in *.
    destruct (issue_world svc rt user w1 i eq_refl)
      as (i' & Hi' & _ & _ & _ & Hredir & _).
    destruct (issue svc rt user w1) as [[lr'|e] w2]; cbn [fst snd] in *;
      [|discriminate Hlr].
    injection Hlr as ->.
    unfold redirect, read_interaction, bind, get_session, res_redirect, ret, throw.
    rewrite Hi', Hredir, Hurl. reflexivity. }
  split; [exact Hresp|].
  destruct (append_all_shape lr u) as (Hb & Hf & Hp).
  split; [exact Hb|]. split; [exact Hf|]. split; [exact Hp|].
  assert (Hcode : rt = [ResponseTypeEnum.code] -> state i = None -> nonce i = None ->
                  lr = {| LoginResponseDto.code := Some (uuidv4 svc);
                          LoginResponseDto.access_token := None;
                          LoginResponseDto.id_token := None;
                          LoginResponseDto.state := None;
                          LoginResponseDto.nonce := None |}).
  { intros -> Hs Hn. revert Hlr. run_eff. cbn. rewrite Hs, Hn. cbn. intro Hlr.
    injection Hlr as <-. reflexivity. }
  assert (Hfields : rt = [ResponseTypeEnum.code] -> state i = None -> nonce i = None ->
                    uuidv4 svc <> "" -> present_fields lr = [("code", uuidv4 svc)]).
  { intros Hc Hs Hn Hne. rewrite (Hcode Hc Hs Hn).
    unfold present_fields, present. cbn.
    apply String.eqb_neq in Hne. rewrite Hne. reflexivity. }
  split; [|split; [|split]].
  - intros Hc Hs Hn Hne. split; [exact (Hfields Hc Hs Hn Hne)|].
    intros r Hr -> Hplain. rewrite Hresp, (Hcode Hc Hs Hn).
    rewrite (href_code_only r (uuidv4 svc) Hne Hplain). reflexivity.
  - exact (proj1 (append_all_query lr u)).
  - exact (href_append_all lr u).
  - intros Hc Hs Hn Hne. rewrite Hresp.
    rewrite <- (Hfields Hc Hs Hn Hne). f_equal. apply href_append_all.
    rewrite (Hfields Hc Hs Hn Hne). discriminate.
Qed.

Lemma redirect_parameters_witness :
  response
    (snd (postLogin Demo.services Demo.login
            (Demo.pending "https://app.example/cb" [ResponseTypeEnum.code])))
  = Some ("https://app.example/cb" ++ "?code=" ++ Demo.uuid).
Proof.
  apply (proj1 (proj2 (proj2 (proj2 (proj2
           (redirect_parameters
              Demo.services Demo.login
              (Demo.pending "https://app.example/cb" [ResponseTypeEnum.code])
              (new_interaction 1 Demo.request Demo.app
                 (Demo.query "https://app.example/cb" [ResponseTypeEnum.code]))
              [ResponseTypeEnum.code] Demo.alice
              {| LoginResponseDto.code := Some Demo.uuid;
                 LoginResponseDto.access_token := None;
                 LoginResponseDto.id_token := None;
                 LoginResponseDto.state := None;
                 LoginResponseDto.nonce := None |}
              (bare "https://app.example/cb")
              eq_refl eq_refl eq_refl eq_refl eq_refl eq_refl))))));
    try reflexivity.
  discriminate.
Defined.

Example code_before_the_fragment :
  option_map (fun u => URL.href (URL.append "code" Demo.uuid u))
             (Parser.parse "https://app.example/cb#top")
  = Some "https://app.example/cb?code=110ec58a-a0f2-4ac4-8393-c866d813b8d1#top".
Proof. reflexivity. Qed.

(** The run the claim fails on: the client's registered redirect URI has a
    query of its own, and the code is appended to that query. *)
Lemma redirect_uri_with_query_keeps_it :
  response
    (snd (postLogin Demo.services Demo.login
            (Demo.pending "https://app.example/cb?tenant=7" [ResponseTypeEnum.code])))
  = Some "https://app.example/cb?tenant=7&code=110ec58a-a0f2-4ac4-8393-c866d813b8d1"
  /\ response
       (snd (postLogin Demo.services Demo.login
               (Demo.pending "https://app.example/cb?tenant=7" [ResponseTypeEnum.code])))
     <> Some ("https://app.example/cb?tenant=7" ++ "?code=" ++ Demo.uuid).
Proof.
  split; [reflexivity | discriminate].
Qed.

(** * More of the controller *)

(** ** GET /auth: routing and the interaction it stores *)

(** X1.  An accepted authorization request is sent to /auth/register when
    its prompt is exactly [AuthPrompt.create], and to /auth/login for every
    other prompt and for none. *)
Theorem accepted_request_routing
        (svc : Services) (req : Request) (q : Query.t) (w : World) (c : Client) :
  findOne svc (Query.client_id q) = Resolved (Some c) ->
  Js.truthy (isRedirectUri c (Query.redirect_uri q)) = true ->
  (Query.prompt q = Some AuthPrompt.create ->
   fst (getAuth svc req q w) = Normal {| url := "/auth/register" |})
  /\ (Query.prompt q <> Some AuthPrompt.create ->
      fst (getAuth svc req q w) = Normal {| url := "/auth/login" |}).
Proof.
  intros H Hr. rewrite (getAuth_accepts _ _ _ _ _ H Hr). unfold routeNext. simpl.
  split.
  - intros ->. reflexivity.
  - intro Hne. destruct (Query.prompt q) as [p|]; [|reflexivity].
    destruct (String.eqb_spec p AuthPrompt.create) as [->|]; [|reflexivity].
    now contradiction Hne.
Qed.

Lemma accepted_request_routing_witness :
  fst (getAuth Demo.services Demo.request
         (Cases.query None None (Some "create")) Demo.fresh)
  = Normal {| url := "/auth/register" |}.
Proof.
  apply (proj1 (accepted_request_routing
                  Demo.services Demo.request
                  (Cases.query None None (Some "create")) Demo.fresh
                  Demo.app eq_refl eq_refl)).
  reflexivity.
Defined.

(** X2.  An accepted authorization request replaces the interaction as a
    whole: the new one has the request's client, redirect URI, response
    type, scope, state and nonce, the caller's address (the empty string
    when the request carries none), and no code, id_token or access_token,
    whatever an earlier login recorded.  The credentials kept in the
    session and the response are not touched. *)
Theorem accepted_request_drops_tokens
        (svc : Services) (req : Request) (q : Query.t) (w : World) (c : Client) :
  findOne svc (Query.client_id q) = Resolved (Some c) ->
  Js.truthy (isRedirectUri c (Query.redirect_uri q)) = true ->
  exists i',
    interaction (session (snd (getAuth svc req q w))) = Some i'
    /\ (code i' = None /\ id_token i' = None /\ access_token i' = None)
    /\ (client i' = Some c
        /\ client_id i' = Some (Query.client_id q)
        /\ redirect_uri i' = Some (Query.redirect_uri q)
        /\ response_type i' = Some (Query.response_type q)
        /\ scope i' = Some (Query.scope q)
        /\ state i' = Query.state q
        /\ nonce i' = Query.nonce q)
    /\ (req_clientIp req = None -> clientIp i' = Some "")
    /\ email (session (snd (getAuth svc req q w))) = email (session w)
    /\ password (session (snd (getAuth svc req q w))) = password (session w)
    /\ response (snd (getAuth svc req q w)) = response w.
Proof.
  intros H Hr. rewrite (getAuth_accepts _ _ _ _ _ H Hr).
  eexists. split; [reflexivity|]. simpl.
  repeat split; try reflexivity.
  intros ->. reflexivity.
Qed.

Lemma accepted_request_drops_tokens_witness :
  exists i',
    interaction
      (session
         (snd (getAuth Demo.services Demo.request
                 (Demo.query "https://app.example/cb" [ResponseTypeEnum.code])
                 Cases.granted)))
    = Some i'
    /\ code i' = None.
Proof.
  destruct (accepted_request_drops_tokens
              Demo.services Demo.request
              (Demo.query "https://app.example/cb" [ResponseTypeEnum.code])
              Cases.granted Demo.app eq_refl eq_refl)
    as (i' & Hi' & (Hc & _) & _).
  exists i'. split; [exact Hi' | exact Hc].
Defined.

Lemma stored_attempts_nonzero (s : Session) : stored_attempts s <> 0%Z.
Proof.
  unfold stored_attempts. destruct (interaction s) as [i|]; [|discriminate].
  destruct (loginAttempts i) as [n|]; [|discriminate].
  destruct (Z.eqb_spec n 0); [discriminate | assumption].
Qed.

(** What [getAuth] leaves of the session it found, whatever it does: the
    credentials and the counter the next request will store. *)
Lemma getAuth_keeps (svc : Services) (req : Request) (q : Query.t) (w : World) :
  email (session (snd (getAuth svc req q w))) = email (session w)
  /\ password (session (snd (getAuth svc req q w))) = password (session w)
  /\ stored_attempts (session (snd (getAuth svc req q w))) = stored_attempts (session w).
Proof.
  destruct (findOne svc (Query.client_id q)) as [[c|]|e] eqn:H.
  - destruct (Js.truthy (isRedirectUri c (Query.redirect_uri q))) eqn:Hr.
    + rewrite (getAuth_accepts _ _ _ _ _ H Hr). simpl.
      repeat split; try reflexivity.
      unfold stored_attempts at 1. simpl.
      destruct (Z.eqb_spec (stored_attempts (session w)) 0) as [E|]; [|reflexivity].
      now apply stored_attempts_nonzero in E.
    + rewrite (getAuth_mismatch _ _ _ _ _ H Hr). repeat split; reflexivity.
  - rewrite (getAuth_unknown _ _ _ _ H). repeat split; reflexivity.
  - rewrite (getAuth_rejected _ _ _ _ _ H). repeat split; reflexivity.
Qed.

(** X3.  The last accepted authorization request wins: the session it
    leaves is the same whether or not another authorization request, with
    whatever outcome, was handled just before it. *)
Theorem last_request_wins
        (svc1 svc2 : Services) (req1 req2 : Request) (q1 q2 : Query.t)
        (w : World) (c : Client) :
  findOne svc2 (Query.client_id q2) = Resolved (Some c) ->
  Js.truthy (isRedirectUri c (Query.redirect_uri q2)) = true ->
  session (snd (getAuth svc2 req2 q2 (snd (getAuth svc1 req1 q1 w))))
  = session (snd (getAuth svc2 req2 q2 w)).
Proof.
  intros H Hr.
  rewrite (getAuth_accepts svc2 req2 q2 w c H Hr).
  rewrite (getAuth_accepts svc2 req2 q2 (snd (getAuth svc1 req1 q1 w)) c H Hr).
  destruct (getAuth_keeps svc1 req1 q1 w) as (He & Hp & Hs).
  unfold accepted, set_interaction. simpl. rewrite He, Hp, Hs. reflexivity.
Qed.

Lemma last_request_wins_witness :
  session
    (snd (getAuth Demo.services Demo.request
            (Demo.query "https://app.example/cb" [ResponseTypeEnum.code])
            (snd (getAuth Demo.services Demo.request
                    (Cases.query (Some "xyz") None None) Demo.fresh))))
  = session
      (snd (getAuth Demo.services Demo.request
              (Demo.query "https://app.example/cb" [ResponseTypeEnum.code])
              Demo.fresh)).
Proof.
  apply (last_request_wins
           Demo.services Demo.services Demo.request Demo.request
           (Cases.query (Some "xyz") None None)
           (Demo.query "https://app.example/cb" [ResponseTypeEnum.code])
           Demo.fresh Demo.app eq_refl eq_refl).
Defined.

(** X4.  The empty redirect_uri is rejected for every client that has a
    list of redirect URIs, also one whose list has an empty piece: the
    piece found is falsy. *)
Theorem empty_redirect_uri_rejected
        (svc : Services) (req : Request) (q : Query.t) (w : World) (c : Client)
        (list : string) :
  findOne svc (Query.client_id q) = Resolved (Some c) ->
  redirect_uris c = Some list ->
  Query.redirect_uri q = "" ->
  fst (getAuth svc req q w)
  = Throw (OidcBadRequestException Oauth2AndOidcErrorsEnum.invalid_request
                                   AuthRequestRequiredParamters.redirect_uri)
  /\ session (snd (getAuth svc req q w)) = session w.
Proof.
  intros H Hl He.
  assert (E : Js.truthy (isRedirectUri c (Query.redirect_uri q)) = false).
  { destruct (Js.truthy (isRedirectUri c (Query.redirect_uri q))) eqn:E; [|reflexivity].
    apply isRedirectUri_truthy in E. destruct E as [_ Hne]. contradiction. }
  rewrite (getAuth_mismatch _ _ _ _ _ H E), (refusal_listed c list Hl).
  split; reflexivity.
Qed.

Lemma empty_redirect_uri_rejected_witness :
  fst (getAuth Demo.services Demo.request (Demo.query "" [ResponseTypeEnum.code])
         Demo.fresh)
  = Throw (OidcBadRequestException Oauth2AndOidcErrorsEnum.invalid_request
                                   AuthRequestRequiredParamters.redirect_uri).
Proof.
  apply (proj1 (empty_redirect_uri_rejected
                  Demo.services Demo.request (Demo.query "" [ResponseTypeEnum.code])
                  Demo.fresh Demo.app
                  "https://app.example/cb,https://app.example/cb?tenant=7"
                  eq_refl eq_refl eq_refl)).
Defined.

(** X5.  A redirect_uri that holds a comma is rejected for every client
    that has a list of redirect URIs: the list is cut at every comma, so no
    piece of it holds one. *)
Theorem comma_redirect_uri_rejected
        (svc : Services) (req : Request) (q : Query.t) (w : World) (c : Client)
        (list : string) :
  findOne svc (Query.client_id q) = Resolved (Some c) ->
  redirect_uris c = Some list ->
  In ","%char (list_ascii_of_string (Query.redirect_uri q)) ->
  fst (getAuth svc req q w)
  = Throw (OidcBadRequestException Oauth2AndOidcErrorsEnum.invalid_request
                                   AuthRequestRequiredParamters.redirect_uri).
Proof.
  intros H Hl Hc.
  assert (Hn : ~ In (Query.redirect_uri q) (registered c)).
  { unfold registered. rewrite Hl. intro Hin. exact (split_pieces _ _ _ Hin Hc). }
  rewrite (getAuth_mismatch _ _ _ _ _ H (isRedirectUri_unregistered _ _ Hn)).
  rewrite (refusal_listed c list Hl). reflexivity.
Qed.

Lemma comma_redirect_uri_rejected_witness :
  fst (getAuth Demo.services Demo.request
         (Demo.query "https://app.example/cb,https://app.example/cb?tenant=7"
            [ResponseTypeEnum.code])
         Demo.fresh)
  = Throw (OidcBadRequestException Oauth2AndOidcErrorsEnum.invalid_request
                                   AuthRequestRequiredParamters.redirect_uri).
Proof.
  apply (comma_redirect_uri_rejected
           Demo.services Demo.request
           (Demo.query "https://app.example/cb,https://app.example/cb?tenant=7"
              [ResponseTypeEnum.code])
           Demo.fresh Demo.app
           "https://app.example/cb,https://app.example/cb?tenant=7"
           eq_refl eq_refl).
  vm_compute. tauto.
Defined.

(** ** POST /auth/login, outcome by outcome *)

Lemma same_request_refl (i : InteractionModel) : same_request i i.
Proof. reflexivity. Qed.

Lemma same_request_trans (i j k : InteractionModel) :
  same_request i j -> same_request j k -> same_request i k.
Proof. unfold same_request. intros H1 H2. now rewrite H1. Qed.

(** Interactions that differ at most in their tokens agree on everything
    the handlers decide by. *)
Lemma same_request_members (i j : InteractionModel) :
  same_request i j ->
  loginAttempts i = loginAttempts j
  /\ client i = client j
  /\ redirect_uri i = redirect_uri j
  /\ response_type i = response_type j
  /\ scope i = scope j
  /\ state i = state j
  /\ nonce i = nonce j.
Proof.
  unfold same_request. intro H.
  repeat split;
    [ apply (f_equal loginAttempts) in H | apply (f_equal client) in H
    | apply (f_equal redirect_uri) in H | apply (f_equal response_type) in H
    | apply (f_equal scope) in H | apply (f_equal state) in H
    | apply (f_equal nonce) in H ]; exact H.
Qed.

Lemma authorized_same_request (i j : InteractionModel) :
  same_request i j -> authorized i -> authorized j.
Proof.
  intros H (Ha & (rt & Hrt) & (c & r & Hc & Hr & Hin & Hne)).
  destruct (same_request_members i j H) as (E1 & E2 & E3 & E4 & _).
  unfold authorized. rewrite <- E1, <- E2, <- E3, <- E4.
  split; [assumption|]. split; [now exists rt|]. now exists c, r.
Qed.

(** A submission with an email, on a session with a pending response type,
    is the run [submission] describes. *)
Lemma postLogin_pending (svc : Services) (dto : LoginDto.t) (w : World)
      (rt : list ResponseTypeEnum.t) :
  pending_response_type (session w) = Some rt ->
  Js.truthy (LoginDto.email dto) = true ->
  postLogin svc dto w = submission svc dto rt w.
Proof.
  intros Hrt He. destruct w as [s l r].
  unfold postLogin, submission, submitted, bind, get_session, put_session,
    try_catch, await, ret, throw.
  cbn [session console response] in *.
  rewrite Hrt, He.
  destruct (loginWithEmail svc (to_string (LoginDto.email dto)) (LoginDto.password dto))
    as [user|e]; [|reflexivity].
  cbn [session console response].
  destruct (issue svc rt user
              {| session := set_credentials (LoginDto.email dto)
                                            (LoginDto.password dto) s;
                 console := l; response := r |}) as [[lr|e] w2]; [|reflexivity].
  unfold redirect, read_interaction, bind, get_session, res_redirect, ret, throw.
  destruct (interaction (session w2)) as [i|]; [|reflexivity].
  destruct (new_URL svc (to_string (redirect_uri i))); reflexivity.
Qed.

Lemma postLogin_no_session (svc : Services) (dto : LoginDto.t) (w : World) :
  pending_response_type (session w) = None ->
  postLogin svc dto w = (Throw invalid_session, w).
Proof.
  intro H. unfold postLogin, bind, get_session, throw. rewrite H. reflexivity.
Qed.

Lemma postLogin_no_email (svc : Services) (dto : LoginDto.t) (w : World)
      (rt : list ResponseTypeEnum.t) :
  pending_response_type (session w) = Some rt ->
  Js.truthy (LoginDto.email dto) = false ->
  postLogin svc dto w = (Normal tt, w).
Proof.
  intros H He. unfold postLogin, bind, get_session, ret. rewrite H, He. reflexivity.
Qed.

Lemma pending_interaction (s : Session) (rt : list ResponseTypeEnum.t) :
  pending_response_type s = Some rt ->
  exists i, interaction s = Some i /\ response_type i = Some rt.
Proof.
  unfold pending_response_type. destruct (interaction s) as [i|]; [|discriminate].
  intro H. now exists i.
Qed.

(** What a submission with an email leaves, whatever its outcome. *)
Lemma submission_world (svc : Services) (dto : LoginDto.t)
      (rt : list ResponseTypeEnum.t) (w : World) (i : InteractionModel) :
  interaction (session w) = Some i ->
  exists i',
    interaction (session (snd (submission svc dto rt w))) = Some i'
    /\ same_request i i'
    /\ email (session (snd (submission svc dto rt w))) = LoginDto.email dto
    /\ password (session (snd (submission svc dto rt w))) = LoginDto.password dto
    /\ console (snd (submission svc dto rt w)) = console w
    /\ (forall t, fst (submission svc dto rt w) = Throw t ->
                  response (snd (submission svc dto rt w)) = response w).
Proof.
  intro Hi. unfold submission.
  destruct (loginWithEmail svc (to_string (LoginDto.email dto)) (LoginDto.password dto))
    as [user|e].
  - assert (Hi1 : interaction (session (submitted dto w)) = Some i) by exact Hi.
    destruct (issue_world svc rt user (submitted dto w) i Hi1)
      as (i' & Hi' & Hsame & _ & _ & _ & Hem & Hpw & Hcon & Hresp).
    destruct (issue svc rt user (submitted dto w)) as [[lr|e] w2];
      cbn [fst snd] in *.
    + rewrite Hi'. destruct (new_URL svc (to_string (redirect_uri i'))) as [u|];
        cbn [fst snd session console response];
        exists i'; repeat split; try assumption; try discriminate.
      intros t _. exact Hresp.
    + exists i'. repeat split; try assumption. intros t _. exact Hresp.
  - exists i. cbn [fst snd]. repeat split; try reflexivity. exact Hi.
Qed.

(** X6.  A submission with an email, on a session with a pending response
    type, stores the submitted email and password in the session before it
    verifies them, and they stay there whether the login then succeeds,
    fails on the credentials, on the signer or on the redirect. *)
Theorem credentials_stored_whatever_the_outcome
        (svc : Services) (dto : LoginDto.t) (w : World) (rt : list ResponseTypeEnum.t) :
  pending_response_type (session w) = Some rt ->
  Js.truthy (LoginDto.email dto) = true ->
  email (session (snd (postLogin svc dto w))) = LoginDto.email dto
  /\ password (session (snd (postLogin svc dto w))) = LoginDto.password dto.
Proof.
  intros Hrt He. rewrite (postLogin_pending _ _ _ _ Hrt He).
  destruct (pending_interaction _ _ Hrt) as (i & Hi & _).
  destruct (submission_world svc dto rt w i Hi) as (i' & _ & _ & Hem & Hpw & _).
  split; assumption.
Qed.

Lemma credentials_stored_whatever_the_outcome_witness :
  email
    (session
       (snd (postLogin Demo.services Cases.wrong_password
               (Demo.pending "https://app.example/cb" [ResponseTypeEnum.code]))))
  = Some "alice@example.org"
  /\ password
       (session
          (snd (postLogin Demo.services Cases.wrong_password
                  (Demo.pending "https://app.example/cb" [ResponseTypeEnum.code]))))
     = Some "guess".
Proof.
  apply (credentials_stored_whatever_the_outcome
           Demo.services Cases.wrong_password
           (Demo.pending "https://app.example/cb" [ResponseTypeEnum.code])
           [ResponseTypeEnum.code] eq_refl eq_refl).
Defined.

(** X7.  A submission without an email (none, or the empty string), on a
    session with a pending response type, does nothing at all: the handler
    returns without an error, without a redirect, and with the session as
    it found it; the credential verifier is not consulted. *)
Theorem submission_without_email_does_nothing
        (svc : Services) (dto : LoginDto.t) (w : World) (rt : list ResponseTypeEnum.t) :
  pending_response_type (session w) = Some rt ->
  LoginDto.email dto = None \/ LoginDto.email dto = Some "" ->
  fst (postLogin svc dto w) = Normal tt
  /\ snd (postLogin svc dto w) = w.
Proof.
  intros Hrt He.
  assert (Hf : Js.truthy (LoginDto.email dto) = false)
    by (destruct He as [-> | ->]; reflexivity).
  rewrite (postLogin_no_email _ _ _ _ Hrt Hf). split; reflexivity.
Qed.

Lemma submission_without_email_does_nothing_witness :
  snd (postLogin Demo.services Cases.no_email
         (Demo.pending "https://app.example/cb" [ResponseTypeEnum.code]))
  = Demo.pending "https://app.example/cb" [ResponseTypeEnum.code].
Proof.
  apply (proj2 (submission_without_email_does_nothing
                  Demo.services Cases.no_email
                  (Demo.pending "https://app.example/cb" [ResponseTypeEnum.code])
                  [ResponseTypeEnum.code] eq_refl (or_introl eq_refl))).
Defined.

Lemma submission_not_invalid_session (svc : Services) (dto : LoginDto.t)
      (rt : list ResponseTypeEnum.t) (w : World) :
  fst (submission svc dto rt w) <> Throw invalid_session.
Proof.
  unfold submission.
  destruct (loginWithEmail svc (to_string (LoginDto.email dto)) (LoginDto.password dto))
    as [user|e]; [|discriminate].
  destruct (issue svc rt user (submitted dto w)) as [[lr|e] w2]; [|discriminate].
  destruct (interaction (session w2)) as [i|]; [|discriminate].
  destruct (new_URL svc (to_string (redirect_uri i))); discriminate.
Qed.

(** X8.  The login submission throws the invalid-session exception exactly
    when the session has no interaction or an interaction without a
    response type, and then leaves the world as it found it: nothing is
    stored, not even the submitted credentials. *)
Theorem invalid_session_exactly_without_response_type
        (svc : Services) (dto : LoginDto.t) (w : World) :
  (fst (postLogin svc dto w) = Throw invalid_session
   <-> pending_response_type (session w) = None)
  /\ (pending_response_type (session w) = None -> snd (postLogin svc dto w) = w).
Proof.
  split.
  - split.
    + intro H. destruct (pending_response_type (session w)) as [rt|] eqn:Hrt;
        [|reflexivity].
      destruct (Js.truthy (LoginDto.email dto)) eqn:He.
      * rewrite (postLogin_pending _ _ _ _ Hrt He) in H.
        now apply submission_not_invalid_session in H.
      * rewrite (postLogin_no_email _ _ _ _ Hrt He) in H. discriminate H.
    + intro H. rewrite (postLogin_no_session _ _ _ H). reflexivity.
  - intro H. rewrite (postLogin_no_session _ _ _ H). reflexivity.
Qed.

Lemma invalid_session_exactly_without_response_type_witness :
  snd (postLogin Demo.services Demo.login
         {| session := {| interaction := Some (only_loginAttempts 1);
                          email := None; password := None |};
            console := []; response := None |})
  = {| session := {| interaction := Some (only_loginAttempts 1);
                     email := None; password := None |};
       console := []; response := None |}.
Proof.
  apply (proj2 (invalid_session_exactly_without_response_type
                  Demo.services Demo.login
                  {| session := {| interaction := Some (only_loginAttempts 1);
                                   email := None; password := None |};
                     console := []; response := None |})).
  reflexivity.
Defined.

(** X9.  When the credential verifier rejects the login, the submission
    throws the user-not-found exception with the verifier's message, mints
    nothing and redirects nowhere: the interaction is the one it found. *)
Theorem rejected_credentials_mint_nothing
        (svc : Services) (dto : LoginDto.t) (w : World)
        (rt : list ResponseTypeEnum.t) (e : JsError) :
  pending_response_type (session w) = Some rt ->
  Js.truthy (LoginDto.email dto) = true ->
  loginWithEmail svc (to_string (LoginDto.email dto)) (LoginDto.password dto)
  = Rejected e ->
  fst (postLogin svc dto w) = Throw (user_not_found e)
  /\ interaction (session (snd (postLogin svc dto w))) = interaction (session w)
  /\ response (snd (postLogin svc dto w)) = response w
  /\ console (snd (postLogin svc dto w)) = console w.
Proof.
  intros Hrt He Hv. rewrite (postLogin_pending _ _ _ _ Hrt He).
  unfold submission. rewrite Hv. repeat split; reflexivity.
Qed.

Lemma rejected_credentials_mint_nothing_witness :
  fst (postLogin Demo.services Cases.wrong_password
         (Demo.pending "https://app.example/cb" Cases.hybrid))
  = Throw (user_not_found {| message := "bad credentials" |}).
Proof.
  apply (proj1 (rejected_credentials_mint_nothing
                  Demo.services Cases.wrong_password
                  (Demo.pending "https://app.example/cb" Cases.hybrid)
                  Cases.hybrid {| message := "bad credentials" |}
                  eq_refl eq_refl eq_refl)).
Defined.

(** X10.  When the interaction's redirect URI is one the URL constructor
    rejects, a login with good credentials still fails with the
    user-not-found exception, after the tokens were minted: the world is
    the one issuance left, with the code recorded on the interaction when
    one was asked for, and no redirect. *)
Theorem unparsable_redirect_uri_fails_after_minting
        (svc : Services) (dto : LoginDto.t) (w : World) (i : InteractionModel)
        (rt : list ResponseTypeEnum.t) (user : Account) (lr : LoginResponseDto.t) :
  interaction (session w) = Some i ->
  response_type i = Some rt ->
  Js.truthy (LoginDto.email dto) = true ->
  loginWithEmail svc (to_string (LoginDto.email dto)) (LoginDto.password dto)
  = Resolved user ->
  fst (issue svc rt user (submitted dto w)) = Normal lr ->
  new_URL svc (to_string (redirect_uri i)) = None ->
  (exists e, fst (postLogin svc dto w) = Throw (user_not_found e))
  /\ snd (postLogin svc dto w) = snd (issue svc rt user (submitted dto w))
  /\ response (snd (postLogin svc dto w)) = response w
  /\ (In ResponseTypeEnum.code rt ->
      exists i', interaction (session (snd (postLogin svc dto w))) = Some i'
                 /\ code i' = Some (uuidv4 svc)).
Proof.
  intros Hi Hrt He Hu Hlr Hurl.
  assert (Hp : pending_response_type (session w) = Some rt)
    by (unfold pending_response_type; now rewrite Hi).
  rewrite (postLogin_pending _ _ _ _ Hp He). unfold submission. rewrite Hu.
  assert (Hi1 : interaction (session (submitted dto w)) = Some i) by exact Hi.
  destruct (issue_world svc rt user (submitted dto w) i Hi1)
    as (i' & Hi' & _ & Hcode & _ & Hredir & _ & _ & _ & Hresp).
  destruct (issue svc rt user (submitted dto w)) as [[lr'|e] w2];
    cbn [fst snd] in *; [|discriminate Hlr].
  rewrite Hi', Hredir, Hurl. cbn [fst snd].
  split; [eexists; reflexivity|]. split; [reflexivity|]. split; [exact Hresp|].
  intro Hin. exists i'. split; [exact Hi' | exact (Hcode Hin)].
Qed.

Lemma unparsable_redirect_uri_fails_after_minting_witness :
  exists i',
    interaction
      (session
         (snd (postLogin Cases.services Demo.login
                 (snd (getAuth Cases.services Demo.request
                         (Demo.query "app-callback" [ResponseTypeEnum.code])
                         Demo.fresh)))))
    = Some i'
    /\ code i' = Some Demo.uuid.
Proof.
  apply (proj2 (proj2 (proj2
           (unparsable_redirect_uri_fails_after_minting
              Cases.services Demo.login
              (snd (getAuth Cases.services Demo.request
                      (Demo.query "app-callback" [ResponseTypeEnum.code])
                      Demo.fresh))
              (new_interaction 1 Demo.request Cases.native
                 (Demo.query "app-callback" [ResponseTypeEnum.code]))
              [ResponseTypeEnum.code] Demo.alice
              {| LoginResponseDto.code := Some Demo.uuid;
                 LoginResponseDto.access_token := None;
                 LoginResponseDto.id_token := None;
                 LoginResponseDto.state := None;
                 LoginResponseDto.nonce := None |}
              eq_refl eq_refl eq_refl eq_refl eq_refl eq_refl)))).
  left. reflexivity.
Defined.

(** X11.  When code, id_token and token are all asked for and the signer
    signs the ID token but fails on the access token, the submission throws
    with the signer's message and both the code and the ID token minted
    before the failure stay recorded on the interaction; no access token is
    recorded and nothing is redirected. *)
Theorem access_token_failure_keeps_code_and_id_token
        (svc : Services) (dto : LoginDto.t) (w : World) (i : InteractionModel)
        (rt : list ResponseTypeEnum.t) (user : Account) (t : string) (e : JsError) :
  interaction (session w) = Some i ->
  response_type i = Some rt ->
  In ResponseTypeEnum.code rt ->
  In ResponseTypeEnum.id_token rt ->
  In ResponseTypeEnum.token rt ->
  Js.truthy (LoginDto.email dto) = true ->
  loginWithEmail svc (to_string (LoginDto.email dto)) (LoginDto.password dto)
  = Resolved user ->
  createIdToken svc user (client i) (scope i) = Resolved t ->
  createAccessToken svc user (client i) = Rejected e ->
  fst (postLogin svc dto w) = Throw (user_not_found e)
  /\ interaction (session (snd (postLogin svc dto w)))
     = Some (set_id_token (Some t) (set_code (Some (uuidv4 svc)) i))
  /\ response (snd (postLogin svc dto w)) = response w.
Proof.
  intros Hi Hrt Hc Ht Ha He Hu Hid Hat.
  apply wants_In in Hc. apply wants_In in Ht. apply wants_In in Ha.
  destruct w as [[i0 em pw] l r]. simpl in Hi. subst i0.
  run_eff. rewrite Hrt, He, Hu, Hc, Ht, Ha. cbn. rewrite Hid. cbn. rewrite Hat. cbn.
  repeat split; reflexivity.
Qed.

Lemma access_token_failure_keeps_code_and_id_token_witness :
  interaction
    (session
       (snd (postLogin Cases.half_signer Demo.login
               (Demo.pending "https://app.example/cb" Cases.hybrid))))
  = Some (set_id_token (Some "eyJhbGciOiJSUzI1NiJ9.eyJzdWIiOiJhbGljZSJ9.c2ln")
            (set_code (Some Demo.uuid)
               (new_interaction 1 Demo.request Demo.app
                  (Demo.query "https://app.example/cb" Cases.hybrid)))).
Proof.
  apply (proj1 (proj2
           (access_token_failure_keeps_code_and_id_token
              Cases.half_signer Demo.login
              (Demo.pending "https://app.example/cb" Cases.hybrid)
              (new_interaction 1 Demo.request Demo.app
                 (Demo.query "https://app.example/cb" Cases.hybrid))
              Cases.hybrid Demo.alice
              "eyJhbGciOiJSUzI1NiJ9.eyJzdWIiOiJhbGljZSJ9.c2ln"
              {| message := "no signing key" |}
              eq_refl eq_refl
              (or_introl eq_refl) (or_intror (or_introl eq_refl))
              (or_intror (or_intror (or_introl eq_refl)))
              eq_refl eq_refl eq_refl eq_refl))).
Defined.

(** What any submission leaves of the session, whatever it does. *)
Lemma postLogin_world (svc : Services) (dto : LoginDto.t) (w : World) :
  console (snd (postLogin svc dto w)) = console w
  /\ (forall t, fst (postLogin svc dto w) = Throw t ->
                response (snd (postLogin svc dto w)) = response w)
  /\ (interaction (session w) = None -> snd (postLogin svc dto w) = w)
  /\ (forall i, interaction (session w) = Some i ->
                exists i', interaction (session (snd (postLogin svc dto w))) = Some i'
                           /\ same_request i i').
Proof.
  destruct (pending_response_type (session w)) as [rt|] eqn:Hrt.
  - destruct (pending_interaction _ _ Hrt) as (i & Hi & _).
    destruct (Js.truthy (LoginDto.email dto)) eqn:He.
    + rewrite (postLogin_pending _ _ _ _ Hrt He).
      destruct (submission_world svc dto rt w i Hi)
        as (i' & Hi' & Hsame & _ & _ & Hcon & Hthrow).
      split; [exact Hcon|]. split; [exact Hthrow|].
      split; [intro Hn; rewrite Hn in Hi; discriminate Hi|].
      intros j Hj. rewrite Hi in Hj. injection Hj as <-. now exists i'.
    + rewrite (postLogin_no_email _ _ _ _ Hrt He). cbn [fst snd].
      split; [reflexivity|]. split; [reflexivity|]. split; [reflexivity|].
      intros j Hj. exists j. split; [exact Hj | apply same_request_refl].
  - rewrite (postLogin_no_session _ _ _ Hrt). cbn [fst snd].
    split; [reflexivity|]. split; [reflexivity|]. split; [reflexivity|].
    intros j Hj. exists j. split; [exact Hj | apply same_request_refl].
Qed.



(** X13.  A submission that throws has not redirected: the response is
    the one the handler was given. *)
Theorem failed_submission_never_redirects
        (svc : Services) (dto : LoginDto.t) (w : World) (t : Thrown) :
  fst (postLogin svc dto w) = Throw t ->
  response (snd (postLogin svc dto w)) = response w.
Proof.
  intro H. destruct (postLogin_world svc dto w) as (_ & Hthrow & _).
  exact (Hthrow t H).
Qed.

Lemma failed_submission_never_redirects_witness :
  response
    (snd (postLogin Demo.keyless Demo.login
            (Demo.pending "https://app.example/cb" Cases.hybrid)))
  = response (Demo.pending "https://app.example/cb" Cases.hybrid).
Proof.
  apply (failed_submission_never_redirects
           Demo.keyless Demo.login
           (Demo.pending "https://app.example/cb" Cases.hybrid)
           (user_not_found {| message := "no signing key" |}) eq_refl).
Defined.

(** ** Issuance: the login response and the session record *)

(** X14.  The login response echoes the interaction's state when it is a
    non-empty string, and has no state when the interaction has none or the
    empty string; the same holds for the nonce. *)
Theorem state_and_nonce_echo
        (svc : Services) (rt : list ResponseTypeEnum.t) (user : Account)
        (w : World) (i : InteractionModel) (lr : LoginResponseDto.t) :
  interaction (session w) = Some i ->
  fst (issue svc rt user w) = Normal lr ->
  (forall s, state i = Some s -> s <> "" -> LoginResponseDto.state lr = Some s)
  /\ (state i = None \/ state i = Some "" -> LoginResponseDto.state lr = None)
  /\ (forall n, nonce i = Some n -> n <> "" -> LoginResponseDto.nonce lr = Some n)
  /\ (nonce i = None \/ nonce i = Some "" -> LoginResponseDto.nonce lr = None).
Proof.
  intros Hi H. destruct (issue_result svc rt user w i lr Hi H) as (Hs & Hn & _).
  rewrite Hs, Hn. unfold Js.truthy.
  split; [|split; [|split]].
  - intros s -> Hne. apply String.eqb_neq in Hne. now rewrite Hne.
  - intros [-> | ->]; reflexivity.
  - intros n -> Hne. apply String.eqb_neq in Hne. now rewrite Hne.
  - intros [-> | ->]; reflexivity.
Qed.

Lemma state_and_nonce_echo_witness :
  LoginResponseDto.state
    {| LoginResponseDto.code := Some Demo.uuid;
       LoginResponseDto.access_token := None;
       LoginResponseDto.id_token := None;
       LoginResponseDto.state := Some "xyz";
       LoginResponseDto.nonce := None |}
  = Some "xyz".
Proof.
  apply (proj1 (state_and_nonce_echo
                  Demo.services [ResponseTypeEnum.code] Demo.alice
                  (snd (getAuth Demo.services Demo.request
                          (Cases.query (Some "xyz") (Some "") None) Demo.fresh))
                  (new_interaction 1 Demo.request Demo.app
                     (Cases.query (Some "xyz") (Some "") None))
                  {| LoginResponseDto.code := Some Demo.uuid;
                     LoginResponseDto.access_token := None;
                     LoginResponseDto.id_token := None;
                     LoginResponseDto.state := Some "xyz";
                     LoginResponseDto.nonce := None |}
                  eq_refl eq_refl) "xyz" eq_refl).
  discriminate.
Defined.

(** X15.  Every token issuance puts in the login response it has recorded
    on the session's interaction: after issuance returns, the interaction's
    code, id_token and access_token are the response's where the response
    type asks for them, and the ones the interaction had where it does
    not. *)
Theorem minted_tokens_are_recorded
        (svc : Services) (rt : list ResponseTypeEnum.t) (user : Account)
        (w : World) (i : InteractionModel) (lr : LoginResponseDto.t) :
  interaction (session w) = Some i ->
  fst (issue svc rt user w) = Normal lr ->
  exists i',
    interaction (session (snd (issue svc rt user w))) = Some i'
    /\ (In ResponseTypeEnum.code rt -> code i' = LoginResponseDto.code lr)
    /\ (~ In ResponseTypeEnum.code rt -> code i' = code i)
    /\ (In ResponseTypeEnum.id_token rt -> id_token i' = LoginResponseDto.id_token lr)
    /\ (~ In ResponseTypeEnum.id_token rt -> id_token i' = id_token i)
    /\ (In ResponseTypeEnum.token rt ->
        access_token i' = LoginResponseDto.access_token lr)
    /\ (~ In ResponseTypeEnum.token rt -> access_token i' = access_token i).
Proof.
  intros Hi H.
  destruct (issue_result svc rt user w i lr Hi H) as (_ & _ & i' & Hi' & Hc & Ht & Ha).
  exists i'. split; [exact Hi'|].
  rewrite Hc, Ht, Ha. rewrite <- !wants_In.
  destruct (wants rt ResponseTypeEnum.code);
    destruct (wants rt ResponseTypeEnum.id_token);
    destruct (wants rt ResponseTypeEnum.token);
    repeat split; intro E; try reflexivity;
    try discriminate E; exfalso; now apply E.
Qed.

Lemma minted_tokens_are_recorded_witness :
  exists i',
    interaction
      (session
         (snd (issue Demo.services Cases.hybrid Demo.alice
                 (Demo.pending "https://app.example/cb" Cases.hybrid))))
    = Some i'
    /\ id_token i' = Some "eyJhbGciOiJSUzI1NiJ9.eyJzdWIiOiJhbGljZSJ9.c2ln".
Proof.
  destruct (minted_tokens_are_recorded
              Demo.services Cases.hybrid Demo.alice
              (Demo.pending "https://app.example/cb" Cases.hybrid)
              (new_interaction 1 Demo.request Demo.app
                 (Demo.query "https://app.example/cb" Cases.hybrid))
              {| LoginResponseDto.code := Some Demo.uuid;
                 LoginResponseDto.access_token :=
                   Some "eyJhbGciOiJSUzI1NiJ9.eyJhdCI6MX0.c2ln";
                 LoginResponseDto.id_token :=
                   Some "eyJhbGciOiJSUzI1NiJ9.eyJzdWIiOiJhbGljZSJ9.c2ln";
                 LoginResponseDto.state := None;
                 LoginResponseDto.nonce := None |}
              eq_refl eq_refl)
    as (i' & Hi' & _ & _ & Ht & _).
  exists i'. split; [exact Hi'|].
  apply Ht. right. left. reflexivity.
Defined.

(** ** The pages *)

Lemma getLogin_run (w : World) :
  getLogin w
  = if lacks_client (session w)
    then (Throw (OidcBadRequestException Oauth2AndOidcErrorsEnum.unauthorized_client
                                         AuthRequestRequiredParamters.client_id), w)
    else (Normal {| View.email := Js.or_else (email (session w)) "";
                    View.password := Js.or_else (password (session w)) "";
                    View.postUri := "/auth/login";
                    View.locals := interaction (session w) |}, w).
Proof.
  unfold getLogin, bind, get_session. destruct (lacks_client (session w)); reflexivity.
Qed.

Lemma pages_keep_the_world (w : World) :
  snd (getLogin w) = w /\ snd (getRegister w) = w /\ snd (getForgot w) = w.
Proof.
  rewrite getLogin_run. destruct (lacks_client (session w)); repeat split; reflexivity.
Qed.

(** X16.  After a submission with an email, on a session whose interaction
    has a client and a response type, the login page renders with the
    submitted email and password filled in (the empty string for a missing
    password), whatever the outcome of the submission was. *)
Theorem login_page_shows_submitted_credentials
        (svc : Services) (dto : LoginDto.t) (w : World) (i : InteractionModel)
        (c : Client) (rt : list ResponseTypeEnum.t) :
  interaction (session w) = Some i ->
  client i = Some c ->
  response_type i = Some rt ->
  Js.truthy (LoginDto.email dto) = true ->
  exists v,
    fst (getLogin (snd (postLogin svc dto w))) = Normal v
    /\ View.email v = to_string (LoginDto.email dto)
    /\ View.password v = Js.or_else (LoginDto.password dto) ""
    /\ View.postUri v = "/auth/login"
    /\ View.locals v = interaction (session (snd (postLogin svc dto w))).
Proof.
  intros Hi Hc Hrt He.
  assert (Hp : pending_response_type (session w) = Some rt)
    by (unfold pending_response_type; now rewrite Hi).
  rewrite (postLogin_pending _ _ _ _ Hp He).
  destruct (submission_world svc dto rt w i Hi) as (i' & Hi' & Hsame & Hem & Hpw & _).
  destruct (same_request_members i i' Hsame) as (_ & Hcl & _).
  rewrite getLogin_run. unfold lacks_client. rewrite Hi', <- Hcl, Hc.
  eexists. split; [reflexivity|]. cbn [View.email View.password View.postUri View.locals].
  rewrite Hem, Hpw. repeat split; try reflexivity.
  unfold Js.truthy in He. destruct (LoginDto.email dto) as [s|]; [|discriminate He].
  simpl. destruct (s =? ""); [discriminate He | reflexivity].
Qed.

Lemma login_page_shows_submitted_credentials_witness :
  exists v,
    fst (getLogin
           (snd (postLogin Demo.services Cases.wrong_password
                   (Demo.pending "https://app.example/cb" [ResponseTypeEnum.code]))))
    = Normal v
    /\ View.email v = "alice@example.org"
    /\ View.password v = "guess".
Proof.
  destruct (login_page_shows_submitted_credentials
              Demo.services Cases.wrong_password
              (Demo.pending "https://app.example/cb" [ResponseTypeEnum.code])
              (new_interaction 1 Demo.request Demo.app
                 (Demo.query "https://app.example/cb" [ResponseTypeEnum.code]))
              Demo.app [ResponseTypeEnum.code]
              eq_refl eq_refl eq_refl eq_refl)
    as (v & Hv & He & Hp & _).
  exists v. split; [exact Hv|]. split; [exact He | exact Hp].
Defined.

(** ** A session over several requests *)

Lemma sound_incoming (w : World) : sound w -> sound (incoming w).
Proof. intro H. exact H. Qed.

Lemma sound_stored_attempts (w : World) : sound w -> stored_attempts (session w) = 1%Z.
Proof.
  intro H. unfold stored_attempts.
  destruct (interaction (session w)) as [i|] eqn:Hi; [|reflexivity].
  destruct (H i Hi) as (Ha & _). rewrite Ha. reflexivity.
Qed.

Lemma getAuth_sound (svc : Services) (req : Request) (q : Query.t) (w : World) :
  sound w -> sound (snd (getAuth svc req q w)).
Proof.
  intro Hs.
  destruct (findOne svc (Query.client_id q)) as [[c|]|e] eqn:H.
  - destruct (Js.truthy (isRedirectUri c (Query.redirect_uri q))) eqn:Hr.
    + rewrite (getAuth_accepts _ _ _ _ _ H Hr).
      intros i Hi. cbn in Hi. injection Hi as <-.
      apply isRedirectUri_truthy in Hr. destruct Hr as [Hin Hne].
      unfold authorized. cbn. rewrite (sound_stored_attempts w Hs).
      split; [reflexivity|]. split; [eexists; reflexivity|].
      exists c, (Query.redirect_uri q). repeat split; assumption.
    + rewrite (getAuth_mismatch _ _ _ _ _ H Hr). exact Hs.
  - rewrite (getAuth_unknown _ _ _ _ H). exact Hs.
  - rewrite (getAuth_rejected _ _ _ _ _ H). exact Hs.
Qed.

Lemma postLogin_sound (svc : Services) (dto : LoginDto.t) (w : World) :
  sound w -> sound (snd (postLogin svc dto w)).
Proof.
  intros Hs i' Hi'.
  destruct (postLogin_world svc dto w) as (_ & _ & Hnone & Hkeep).
  destruct (interaction (session w)) as [i|] eqn:Hi.
  - destruct (Hkeep i eq_refl) as (j & Hj & Hsame).
    rewrite Hj in Hi'. injection Hi' as <-.
    exact (authorized_same_request i j Hsame (Hs i Hi)).
  - rewrite (Hnone eq_refl) in Hi'. rewrite Hi in Hi'. discriminate Hi'.
Qed.

Lemma serve_sound (c : Call) (w : World) : sound w -> sound (serve c w).
Proof.
  intro Hs. apply sound_incoming in Hs.
  destruct (pages_keep_the_world (incoming w)) as (Hl & Hr & Hf).
  destruct c; unfold serve.
  - now apply getAuth_sound.
  - now rewrite Hl.
  - now apply postLogin_sound.
  - now rewrite Hr.
  - now rewrite Hf.
Qed.

Lemma serve_all_sound (cs : list Call) (w : World) : sound w -> sound (serve_all cs w).
Proof.
  unfold serve_all. revert w. induction cs as [|c cs IH]; intros w Hs; simpl.
  - exact Hs.
  - apply IH. now apply serve_sound.
Qed.

Lemma sound_without_interaction (w : World) : interaction (session w) = None -> sound w.
Proof. intros H i Hi. rewrite H in Hi. discriminate Hi. Qed.

(** X17.  Whatever requests a browser session that started without an
    interaction has made to the five handlers, with whatever outcomes, an
    interaction it holds has counter 1, a response type, a client and a
    non-empty redirect URI that is one of that client's registered
    redirect URIs. *)
Theorem every_interaction_is_authorized (cs : list Call) (w : World) (i : InteractionModel) :
  interaction (session w) = None ->
  interaction (session (serve_all cs w)) = Some i ->
  loginAttempts i = Some 1%Z
  /\ (exists rt, response_type i = Some rt)
  /\ (exists c r, client i = Some c /\ redirect_uri i = Some r
                  /\ In r (registered c) /\ r <> "").
Proof.
  intros H Hi.
  exact (serve_all_sound cs w (sound_without_interaction w H) i Hi).
Qed.

Lemma every_interaction_is_authorized_witness :
  loginAttempts
    (set_code (Some Demo.uuid)
       (new_interaction 1 Demo.request Demo.app
          (Demo.query "https://app.example/cb" [ResponseTypeEnum.code])))
  = Some 1%Z.
Proof.
  apply (proj1 (every_interaction_is_authorized
                  [CallGetAuth Demo.services Demo.request
                     (Demo.query "https://app.example/cb?tenant=7" Cases.hybrid);
                   CallGetLogin;
                   CallGetAuth Demo.services Demo.request
                     (Demo.query "https://app.example/cb" [ResponseTypeEnum.code]);
                   CallPostLogin Demo.services Cases.wrong_password;
                   CallGetForgot;
                   CallPostLogin Demo.services Demo.login]
                  Demo.fresh
                  (set_code (Some Demo.uuid)
                     (new_interaction 1 Demo.request Demo.app
                        (Demo.query "https://app.example/cb" [ResponseTypeEnum.code])))
                  eq_refl eq_refl)).
Defined.

(** X18.  In a browser session that started without an interaction, after
    whatever requests, the login page is refused with unauthorized_client
    exactly when the session holds no interaction: an interaction without a
    client, the other case the handler checks for, does not arise. *)
Theorem login_page_refused_exactly_without_interaction (cs : list Call) (w : World) :
  interaction (session w) = None ->
  (fst (getLogin (serve_all cs w))
   = Throw (OidcBadRequestException Oauth2AndOidcErrorsEnum.unauthorized_client
                                    AuthRequestRequiredParamters.client_id)
   <-> interaction (session (serve_all cs w)) = None).
Proof.
  intro H.
  pose proof (serve_all_sound cs w (sound_without_interaction w H)) as Hs.
  rewrite getLogin_run. unfold lacks_client.
  destruct (interaction (session (serve_all cs w))) as [i|] eqn:Hi.
  - destruct (Hs i Hi) as (_ & _ & (c & r & Hc & _)). rewrite Hc.
    split; discriminate.
  - split; reflexivity.
Qed.

Lemma login_page_refused_exactly_without_interaction_witness :
  fst (getLogin
         (serve_all [CallGetAuth Demo.services Demo.request Demo.nobody; CallGetRegister]
                    Demo.fresh))
  = Throw (OidcBadRequestException Oauth2AndOidcErrorsEnum.unauthorized_client
                                   AuthRequestRequiredParamters.client_id).
Proof.
  apply (proj2 (login_page_refused_exactly_without_interaction
                  [CallGetAuth Demo.services Demo.request Demo.nobody; CallGetRegister]
                  Demo.fresh eq_refl)).
  reflexivity.
Defined.

(** X19.  In a browser session that started without an interaction, every
    redirect a login submission issues goes to a registered redirect URI of
    the client the interaction was authorized for: the target is the
    serialization of that URI, parsed, with the members of the login
    response added to its query, the login response being the one issuance
    returned for the user the verifier resolved and the interaction's
    response type; the target has the URI's scheme, authority, path and
    fragment, and its query parameters are the URI's own followed by the
    present members of that login response. *)
Theorem redirect_goes_to_a_registered_uri
        (cs : list Call) (w : World) (svc : Services) (dto : LoginDto.t)
        (target : string) :
  interaction (session w) = None ->
  response (serve (CallPostLogin svc dto) (serve_all cs w)) = Some target ->
  exists i c r u rt user lr,
    interaction (session (serve_all cs w)) = Some i
    /\ client i = Some c
    /\ redirect_uri i = Some r
    /\ In r (registered c)
    /\ new_URL svc r = Some u
    /\ response_type i = Some rt
    /\ loginWithEmail svc (to_string (LoginDto.email dto)) (LoginDto.password dto)
       = Resolved user
    /\ fst (issue svc rt user (submitted dto (incoming (serve_all cs w)))) = Normal lr
    /\ target = URL.href (append_all lr u)
    /\ URL.base (append_all lr u) = URL.base u
    /\ URL.fragment (append_all lr u) = URL.fragment u
    /\ URL.searchParams (append_all lr u)
       = (URL.searchParams u ++ present_fields lr)%list.
Proof.
  intros H Ht.
  pose proof (serve_all_sound cs w (sound_without_interaction w H)) as Hs.
  set (w1 := serve_all cs w) in *. unfold serve in Ht.
  destruct (pending_response_type (session (incoming w1))) as [rt|] eqn:Hrt.
  - destruct (Js.truthy (LoginDto.email dto)) eqn:He.
    + rewrite (postLogin_pending _ _ _ _ Hrt He) in Ht.
      destruct (pending_interaction _ _ Hrt) as (i & Hi & Hrti).
      destruct (Hs i Hi) as (_ & _ & (c & r & Hc & Hr & Hin & _)).
      unfold submission in Ht.
      destruct (loginWithEmail svc (to_string (LoginDto.email dto))
                               (LoginDto.password dto)) as [user|e] eqn:Hu;
        [|discriminate Ht].
      assert (Hi1 : interaction (session (submitted dto (incoming w1))) = Some i)
        by exact Hi.
      destruct (issue_world svc rt user (submitted dto (incoming w1)) i Hi1)
        as (i' & Hi' & _ & _ & _ & Hredir & _ & _ & _ & Hresp).
      destruct (issue svc rt user (submitted dto (incoming w1))) as [[lr|e] w2] eqn:Hiss;
        cbn [fst snd] in *; [|rewrite Hresp in Ht; discriminate Ht].
      rewrite Hi', Hredir, Hr in Ht. cbn [to_string] in Ht.
      destruct (new_URL svc r) as [u|] eqn:Hurl;
        cbn [snd response] in Ht; [|rewrite Hresp in Ht; discriminate Ht].
      injection Ht as <-.
      destruct (append_all_shape lr u) as (Hb & Hf & Hp).
      exists i, c, r, u, rt, user, lr. rewrite Hiss.
      repeat split; try assumption; reflexivity.
    + rewrite (postLogin_no_email _ _ _ _ Hrt He) in Ht. discriminate Ht.
  - rewrite (postLogin_no_session _ _ _ Hrt) in Ht. discriminate Ht.
Qed.

Lemma redirect_goes_to_a_registered_uri_witness :
  exists i c r u rt user lr,
    interaction
      (session
         (serve_all [CallGetAuth Demo.services Demo.request
                       (Demo.query "https://app.example/cb?tenant=7"
                          [ResponseTypeEnum.code])]
                    Demo.fresh))
    = Some i
    /\ client i = Some c
    /\ redirect_uri i = Some r
    /\ In r (registered c)
    /\ new_URL Demo.services r = Some u
    /\ response_type i = Some rt
    /\ loginWithEmail Demo.services (to_string (LoginDto.email Demo.login))
                      (LoginDto.password Demo.login)
       = Resolved user
    /\ fst (issue Demo.services rt user
              (submitted Demo.login
                 (incoming
                    (serve_all [CallGetAuth Demo.services Demo.request
                                  (Demo.query "https://app.example/cb?tenant=7"
                                     [ResponseTypeEnum.code])]
                               Demo.fresh))))
       = Normal lr
    /\ "https://app.example/cb?tenant=7&code=110ec58a-a0f2-4ac4-8393-c866d813b8d1"
       = URL.href (append_all lr u)
    /\ URL.base (append_all lr u) = URL.base u
    /\ URL.fragment (append_all lr u) = URL.fragment u
    /\ URL.searchParams (append_all lr u)
       = (URL.searchParams u ++ present_fields lr)%list.
Proof.
  apply (redirect_goes_to_a_registered_uri
           [CallGetAuth Demo.services Demo.request
              (Demo.query "https://app.example/cb?tenant=7" [ResponseTypeEnum.code])]
           Demo.fresh Demo.services Demo.login
           "https://app.example/cb?tenant=7&code=110ec58a-a0f2-4ac4-8393-c866d813b8d1"
           eq_refl eq_refl).
Defined.

Lemma serve_keeps_interaction (c : Call) (w : World) (i : InteractionModel) :
  interaction (session w) = Some i ->
  exists i', interaction (session (serve c w)) = Some i'.
Proof.
  intro Hi.
  destruct (pages_keep_the_world (incoming w)) as (Hl & Hr & Hf).
  destruct c as [svc req q| |svc dto| |]; unfold serve.
  - destruct (findOne svc (Query.client_id q)) as [[cl|]|e] eqn:H.
    + destruct (Js.truthy (isRedirectUri cl (Query.redirect_uri q))) eqn:Hq.
      * rewrite (getAuth_accepts _ _ _ _ _ H Hq). eexists. reflexivity.
      * rewrite (getAuth_mismatch _ _ _ _ _ H Hq). now exists i.
    + rewrite (getAuth_unknown _ _ _ _ H). now exists i.
    + rewrite (getAuth_rejected _ _ _ _ _ H). now exists i.
  - rewrite Hl. now exists i.
  - destruct (postLogin_world svc dto (incoming w)) as (_ & _ & _ & Hkeep).
    destruct (Hkeep i Hi) as (i' & Hi' & _). now exists i'.
  - rewrite Hr. now exists i.
  - rewrite Hf. now exists i.
Qed.

(** X20.  No handler ever removes the interaction: once a session holds
    one, it holds one after any further requests, completed grants
    included, so no later login submission is refused for a missing
    session. *)
Theorem interaction_is_never_removed
        (cs : list Call) (w : World) (i : InteractionModel) :
  interaction (session w) = Some i ->
  exists i', interaction (session (serve_all cs w)) = Some i'.
Proof.
  unfold serve_all. revert w i. induction cs as [|c cs IH]; intros w i Hi; simpl.
  - now exists i.
  - destruct (serve_keeps_interaction c w i Hi) as (j & Hj). exact (IH _ j Hj).
Qed.

Lemma interaction_is_never_removed_witness :
  exists i',
    interaction
      (session
         (serve_all [CallPostLogin Demo.services Demo.login; CallGetLogin;
                     CallGetAuth Demo.offline Demo.request Demo.nobody]
                    (Demo.pending "https://app.example/cb" [ResponseTypeEnum.code])))
    = Some i'.
Proof.
  apply (interaction_is_never_removed
           [CallPostLogin Demo.services Demo.login; CallGetLogin;
            CallGetAuth Demo.offline Demo.request Demo.nobody]
           (Demo.pending "https://app.example/cb" [ResponseTypeEnum.code])
           (new_interaction 1 Demo.request Demo.app
              (Demo.query "https://app.example/cb" [ResponseTypeEnum.code]))
           eq_refl).
Defined.
